(** * Endometrium receptivity classifier (garbha_ai_app.py)

    A shallow embedding of the Streamlit demo application: the threshold
    classifier [classify_endometrium], the mock segmentation of the uploaded
    image, and the script's use of [st.session_state].

    Python floats are IEEE-754 binary64 numbers; they are modelled with the
    standard library's [spec_float] at precision 53 and maximal exponent 1024,
    and related to the rationals they denote. *)

From Stdlib Require Import ZArith QArith Lia String List Bool.
From Stdlib Require Import Floats.SpecFloat Qround Lqa.
From stdpp Require Import gmap strings list fin_maps.

Local Open Scope Z_scope.

(** ** Binary64 floating-point numbers *)

Module Float64.

Definition prec : Z := 53.
Definition emax : Z := 1024.

(** A Python [float]. *)
Definition float : Type := spec_float.

(** Well-formed binary64 datum: canonical mantissa, exponent in range. *)
Definition valid (x : float) : bool := valid_binary prec emax x.

(** Neither an infinity nor a NaN. *)
Definition is_finite (x : float) : bool :=
  match x with
  | S754_zero _ | S754_finite _ _ _ => true
  | S754_infinity _ | S754_nan => false
  end.

(** The float nearest to an integer (exact below 2^53). *)
Definition of_Z (z : Z) : float := binary_normalize prec emax z 0 false.

(** The float denoted by the decimal literal [n/d], e.g. [lit 701 100] for
    7.01: the correctly rounded quotient of two exactly represented
    integers. *)
Definition lit (n d : Z) : float := SFdiv prec emax (of_Z n) (of_Z d).

(** Python's comparison operators on two floats (IEEE semantics: every
    comparison with a NaN is false). *)
Definition ge (x y : float) : bool :=
  match SFcompare x y with Some (Gt | Eq) => true | _ => false end.
Definition le (x y : float) : bool :=
  match SFcompare x y with Some (Lt | Eq) => true | _ => false end.
Definition gt (x y : float) : bool :=
  match SFcompare x y with Some Gt => true | _ => false end.
Definition lt (x y : float) : bool :=
  match SFcompare x y with Some Lt => true | _ => false end.
Definition eq (x y : float) : bool :=
  match SFcompare x y with Some Eq => true | _ => false end.

(** The rational number a finite float denotes (0 for the others). *)
Definition F2Q (x : float) : Q :=
  match x with
  | S754_finite s m e =>
      let z := if s then Zneg m else Zpos m in
      match e with
      | Z0 => inject_Z z
      | Zpos p => inject_Z (z * Z.pow_pos 2 p)
      | Zneg p => Qmake z (Pos.pow 2 p)
      end
  | _ => 0%Q
  end.

(** The same value as an integer multiple of 2^-1074, the smallest
    binary64 increment. *)
Definition scaled (x : float) : Z :=
  match x with
  | S754_finite s m e => (if s then Zneg m else Zpos m) * 2 ^ (e + 1074)
  | _ => 0
  end.

(** What validity says about a finite datum: exponent range, mantissa
    below 2^53, and a full mantissa unless the exponent is minimal. *)
Definition in_format (m : positive) (e : Z) : Prop :=
  -1074 <= e <= 971 /\ Zpos m < 2 ^ 53 /\ (-1074 < e -> 2 ^ 52 <= Zpos m).

End Float64.

Abbreviation float := Float64.float.

(** ** Python values and exceptions *)

(** The values the script stores in [st.session_state] and passes to the
    classifier. An RGB raster is a list of rows of (r, g, b) pixels. *)
Definition pixel : Type := Z * Z * Z.
Abbreviation raster := (list (list pixel)).

Inductive pyval : Type :=
| PyNone
| PyFloat (x : float)
| PyImage (im : raster).

(** Exceptions derived from Python's [Exception]. *)
Inductive exn : Type :=
| TypeError
| KeyError (key : string)
| LibraryError (name msg : string).

Inductive result (A : Type) : Type :=
| Ok (a : A)
| Raise (e : exn).
Arguments Ok {A} a.
Arguments Raise {A} e.

(** Sequencing: an exception raised by the first computation propagates. *)
#[global] Instance result_ret : MRet result := fun _ a => Ok a.
#[global] Instance result_bind : MBind result := fun _ _ k r =>
  match r with
  | Ok a => k a
  | Raise e => Raise e
  end.

(** [v is None] *)
Definition is_None (v : pyval) : bool :=
  match v with PyNone => true | _ => false end.

(** [v >= c], [v <= c], [v > c], [v < c] against a float literal [c]: only a
    float operand is ordered, anything else raises [TypeError]. *)
Definition py_cmp (op : float -> float -> bool) (v : pyval) (c : float)
  : result bool :=
  match v with
  | PyFloat x => Ok (op x c)
  | _ => Raise TypeError
  end.

(** [a and b] on booleans, evaluating [b] only when [a] is true. *)
Definition py_and (a : result bool) (b : unit -> result bool) : result bool :=
  x ← a; if (x : bool) then b tt else Ok false.

(** ** The classifier *)

Definition f9_0 : float := Float64.lit 90 10.
Definition f15_0 : float := Float64.lit 150 10.
Definition f7_0 : float := Float64.lit 70 10.

Local Open Scope string_scope.

Definition classify_endometrium (thickness_mm : pyval)
  : result (string * string) :=
  if is_None thickness_mm then
    Ok ("N/A", "Please run the analysis first.")
  else
    c1 ← py_and (py_cmp Float64.ge thickness_mm f9_0)
                (fun _ => py_cmp Float64.le thickness_mm f15_0);
    if (c1 : bool) then
      Ok ("Receptive (9-15 mm)", "green")
    else
      c2 ← py_and (py_cmp Float64.gt thickness_mm f7_0)
                  (fun _ => py_cmp Float64.lt thickness_mm f9_0);
      if (c2 : bool) then
        Ok ("Pre-Receptive (7-9 mm)", "orange")
      else
        Ok ("Non-Receptive (<7 mm or >15 mm)", "red").

(** The results of the three numeric branches, named. *)
Definition receptive : string * string := ("Receptive (9-15 mm)", "green").
Definition pre_receptive : string * string := ("Pre-Receptive (7-9 mm)", "orange").
Definition non_receptive : string * string :=
  ("Non-Receptive (<7 mm or >15 mm)", "red").

(** The specification's severity names for the second component: the
    three display colours, and "informational" for a free-text message. *)
Inductive severity : Type := normal | warning | critical | informational.

Definition severity_of (tag : string) : severity :=
  if String.eqb tag "green" then normal
  else if String.eqb tag "orange" then warning
  else if String.eqb tag "red" then critical
  else informational.

Definition display_colors : list string := ["green"; "orange"; "red"].

(** The branch of [classify_endometrium] taken on an input, following the
    same tests in the same order. *)
Inductive branch : Type := BAbsent | BReceptive | BPreReceptive | BNonReceptive.

Definition branch_taken (thickness_mm : pyval) : result branch :=
  if is_None thickness_mm then Ok BAbsent
  else
    c1 ← py_and (py_cmp Float64.ge thickness_mm f9_0)
                (fun _ => py_cmp Float64.le thickness_mm f15_0);
    if (c1 : bool) then Ok BReceptive
    else
      c2 ← py_and (py_cmp Float64.gt thickness_mm f7_0)
                  (fun _ => py_cmp Float64.lt thickness_mm f9_0);
      if (c2 : bool) then Ok BPreReceptive else Ok BNonReceptive.

(** What each branch returns. *)
Definition branch_result (b : branch) : string * string :=
  match b with
  | BAbsent => ("N/A", "Please run the analysis first.")
  | BReceptive => ("Receptive (9-15 mm)", "green")
  | BPreReceptive => ("Pre-Receptive (7-9 mm)", "orange")
  | BNonReceptive => ("Non-Receptive (<7 mm or >15 mm)", "red")
  end.

(** The test guarding each branch, evaluated on its own (not in sequence);
    the final [else] is guarded by the failure of the tests before it. *)
Definition guard (b : branch) (thickness_mm : pyval) : bool :=
  match b, thickness_mm with
  | BAbsent, v => is_None v
  | BReceptive, PyFloat x => Float64.ge x f9_0 && Float64.le x f15_0
  | BPreReceptive, PyFloat x => Float64.gt x f7_0 && Float64.lt x f9_0
  | BNonReceptive, PyFloat x =>
      negb (Float64.ge x f9_0 && Float64.le x f15_0)
      && negb (Float64.gt x f7_0 && Float64.lt x f9_0)
  | _, _ => false
  end.

(** ** The mock segmentation *)

Local Open Scope Z_scope.

Definition f0_7 : float := Float64.lit 7 10.

(** Conversion of a float64 to an integer by truncation toward zero, as
    [astype] does for the in-range values met here. *)
Definition trunc (x : float) : Z :=
  match x with
  | S754_finite s m e =>
      let a := match e with
               | Zneg p => Zpos m / Z.pow_pos 2 p
               | _ => Zpos m * 2 ^ e
               end in
      if s then - a else a
  | _ => 0
  end.

Definition astype_uint8 (x : float) : Z := trunc x mod 256.

(** One channel of [(processed_array * 0.7).astype(np.uint8)]: the uint8
    is promoted to float64, multiplied, and cast back. *)
Definition darken_channel (v : Z) : Z :=
  astype_uint8 (SFmul Float64.prec Float64.emax (Float64.of_Z v) f0_7).

(** The product with 0.7 is computed in binary64 and truncated: for three
    channel values the rounded product falls just below the integer
    7v/10. *)
Definition darken_expected (v : Z) : Z :=
  if (v =? 90) || (v =? 170) || (v =? 180) then 7 * v / 10 - 1 else 7 * v / 10.

Definition darken_pixel (p : pixel) : pixel :=
  let '(r, g, b) := p in (darken_channel r, darken_channel g, darken_channel b).

Definition darken (arr : raster) : raster := map (map darken_pixel) arr.

(** [h, w, _ = processed_array.shape] *)
Definition height (arr : raster) : Z := Z.of_nat (length arr).
Definition width (arr : raster) : Z :=
  match arr with
  | [] => 0
  | row :: _ => Z.of_nat (length row)
  end.

(** A slice bound [i] on an axis of length [n]: negative bounds count from
    the end, and every bound is clamped to the axis. *)
Definition slice_index (n i : Z) : Z :=
  if i <? 0 then Z.max (i + n) 0 else Z.min i n.

Definition in_slice (n start stop : Z) (i : nat) : bool :=
  (slice_index n start <=? Z.of_nat i) && (Z.of_nat i <? slice_index n stop).

(** [arr[r0:r1, c0:c1] = px] *)
Definition assign_block (arr : raster) (r0 r1 c0 c1 : Z) (px : pixel) : raster :=
  let h := height arr in
  let w := width arr in
  imap (fun i row =>
          if in_slice h r0 r1 i
          then imap (fun j p => if in_slice w c0 c1 j then px else p) row
          else row) arr.

Definition bright_red : pixel := (255, 50, 50).

Definition mock_segmentation (rgb : raster) : raster :=
  let processed_array := darken rgb in
  let h := height processed_array in
  let w := width processed_array in
  let center_h := h / 2 in
  let center_w := w / 2 in
  let mask_h := h / 6 in
  let mask_w := w / 5 in
  assign_block processed_array
    (center_h - mask_h) (center_h + mask_h)
    (center_w - mask_w) (center_w + mask_w) bright_red.

(** The rows and columns the red block covers, and its size. *)
Definition block_rows (h : Z) : Z * Z := (h / 2 - h / 6, h / 2 + h / 6).
Definition block_cols (w : Z) : Z * Z := (w / 2 - w / 5, w / 2 + w / 5).

Definition is_red (p : pixel) : bool :=
  let '(r, g, b) := p in (r =? 255) && (g =? 50) && (b =? 50).

(** Size of the painted block of an output: number of rows that contain a
    red pixel, and the largest number of red pixels in a row. *)
Definition red_rows (out : raster) : nat :=
  length (filter (fun row => existsb is_red row = true) out).
Definition red_cols (out : raster) : nat :=
  foldr Nat.max 0%nat (map (fun row => length (filter (fun p => is_red p = true) row)) out).

(** A well-formed [(h, w, 3)] uint8 array: at least one pixel, all rows of
    the same length, all channels in 0..255. *)
Definition is_uint8 (v : Z) : bool := (0 <=? v) && (v <=? 255).

Definition rgb_array_ok (arr : raster) : bool :=
  (0 <? height arr) && (0 <? width arr)
  && forallb (fun row => Z.of_nat (length row) =? width arr) arr
  && forallb (forallb (fun '(r, g, b) => is_uint8 r && is_uint8 g && is_uint8 b)) arr.

(** Whether pixel (i, j) of an [h] by [w] image lies in the block. *)
Definition in_block (h w : Z) (i j : nat) : bool :=
  (fst (block_rows h) <=? Z.of_nat i) && (Z.of_nat i <? snd (block_rows h))
  && (fst (block_cols w) <=? Z.of_nat j) && (Z.of_nat j <? snd (block_cols w)).

(** A uniformly grey test image. *)
Definition grey (h w : nat) : raster := repeat (repeat (100, 100, 100) w) h.

(** ** The Streamlit script *)

Local Open Scope string_scope.

(** What a script run puts on the page, and the calls it makes to the
    classifier. *)
Inductive ui_event : Type :=
| UploadedImageShown
| ErrorShown (e : exn)
| SuccessShown
| ClassifierCalled (arg : pyval)
| ResultsShown (thickness : pyval) (classification color : string)
| SegmentationShown (img : pyval).

(** How a statement can end abnormally: with an exception derived from
    [Exception], which [except Exception] catches, or with the control-flow
    exception of [st.rerun()], which derives from [BaseException] and is
    not caught. *)
Inductive signal : Type :=
| Exception (e : exn)
| RerunException.

Inductive outcome (A : Type) : Type :=
| Done (a : A)
| Raised (s : signal).
Arguments Done {A} a.
Arguments Raised {A} s.

Record state : Type := {
  session_state : gmap string pyval;
  page : list ui_event
}.

(** Statements of the script: state passing, where the state changes made
    before an exception persist. *)
Definition script (A : Type) : Type := state -> outcome A * state.

#[global] Instance script_ret : MRet script := fun _ a s => (Done a, s).
#[global] Instance script_bind : MBind script := fun _ _ k m s =>
  match m s with
  | (Done a, s') => k a s'
  | (Raised x, s') => (Raised x, s')
  end.

Definition lift {A} (r : result A) : script A := fun s =>
  (match r with Ok a => Done a | Raise e => Raised (Exception e) end, s).

(** [key in st.session_state] *)
Definition contains (key : string) : script bool := fun s =>
  (Done (bool_decide (is_Some (session_state s !! key))), s).

(** [st.session_state[key]] *)
Definition getitem (key : string) : script pyval := fun s =>
  match session_state s !! key with
  | Some v => (Done v, s)
  | None => (Raised (Exception (KeyError key)), s)
  end.

(** [st.session_state[key] = v] *)
Definition setitem (key : string) (v : pyval) : script unit := fun s =>
  (Done tt, {| session_state := <[key := v]> (session_state s); page := page s |}).

Definition render (ev : ui_event) : script unit := fun s =>
  (Done tt, {| session_state := session_state s; page := page s ++ [ev] |}).

(** [st.rerun()] *)
Definition rerun : script unit := fun s => (Raised RerunException, s).

(** [try: body except Exception as e: handler] *)
Definition try_except {A} (body : script A) (handler : exn -> script A)
  : script A := fun s =>
  match body s with
  | (Raised (Exception e), s') => handler e s'
  | r => r
  end.

Section App.

(** The uploaded file and the image object, with the library calls the
    script makes on them; each may raise. *)
Variables file pil_image : Type.
Variable Image_open : file -> result pil_image.
Variable st_image : pil_image -> result unit.
(** [np.array(image.convert("RGB"))] *)
Variable np_array_RGB : pil_image -> result raster.

(** The widget values of one script run, and the value drawn for
    [round(random.uniform(6.5, 12.5), 2)] if the analysis runs. *)
Record widgets : Type := {
  uploaded_file : option file;
  button_clicked : bool;
  mock_thickness : float
}.

Definition init_session : script unit :=
  has_t ← contains "thickness";
  (if (has_t : bool) then mret tt else setitem "thickness" PyNone);;
  has_p ← contains "processed_image";
  (if (has_p : bool) then mret tt else setitem "processed_image" PyNone).

(** The body of [if st.button(...)], up to [st.rerun()]. *)
Definition analysis (w : widgets) (image : pil_image) : script unit :=
  setitem "thickness" (PyFloat (mock_thickness w));;
  processed_array ← lift (np_array_RGB image);
  setitem "processed_image" (PyImage (mock_segmentation processed_array)).

(** The body of the [try] statement. *)
Definition try_body (w : widgets) (f : file) : script unit :=
  image ← lift (Image_open f);
  render UploadedImageShown;;
  lift (st_image image);;
  if button_clicked w then
    analysis w image;;
    render SuccessShown;;
    rerun
  else mret tt.

Definition except_handler (e : exn) : script unit :=
  render (ErrorShown e);;
  setitem "thickness" PyNone;;
  setitem "processed_image" PyNone.

Definition upload_section (w : widgets) : script unit :=
  match uploaded_file w with
  | Some f => try_except (try_body w f) except_handler
  | None => mret tt
  end.

Definition results_section : script unit :=
  t ← getitem "thickness";
  if is_None t then mret tt
  else
    p ← getitem "processed_image";
    if is_None p then mret tt
    else
      thickness ← getitem "thickness";
      render (ClassifierCalled thickness);;
      '(classification, color) ← lift (classify_endometrium thickness);
      render (ResultsShown thickness classification color);;
      img ← getitem "processed_image";
      render (SegmentationShown img).

(** One execution of the script from top to bottom. *)
Definition main (w : widgets) : script unit :=
  init_session;;
  upload_section w;;
  results_section.

(** Session states the application can be in: a session starts empty,
    and every run of the script (a user interaction, or the run that
    [st.rerun()] requests) starts on a fresh page with the session state
    the previous run left. *)
Definition run (w : widgets) (ss : gmap string pyval) : outcome unit * state :=
  main w {| session_state := ss; page := [] |}.

Inductive reachable : gmap string pyval -> Prop :=
| reachable_start : reachable ∅
| reachable_step w ss :
    reachable ss -> reachable (session_state (snd (run w ss))).

End App.

(** Scenarios: an upload that opens and displays, whose pixel data either
    decodes to a small grey image or turns out to be truncated; a run with
    the button clicked and one without; a session left by an earlier
    analysis. *)
Module Scenario.
Definition open_ok (f : unit) : result unit := Ok tt.
Definition show_ok (im : unit) : result unit := Ok tt.
Definition truncated : exn := LibraryError "OSError" "image file is truncated".
Definition decode_fails (im : unit) : result raster := Raise truncated.
Definition decode_ok (im : unit) : result raster := Ok (grey 6 5).
Definition clicked : widgets unit :=
  {| uploaded_file := Some tt; button_clicked := true;
     mock_thickness := Float64.lit 812 100 |}.
Definition idle : widgets unit :=
  {| uploaded_file := Some tt; button_clicked := false;
     mock_thickness := Float64.lit 812 100 |}.
Definition stale_session : gmap string pyval :=
  <["processed_image" := PyImage (mock_segmentation (grey 6 5))]>
    (<["thickness" := PyFloat (Float64.lit 975 100)]> ∅).
End Scenario.

Arguments init_session : simpl never.
Arguments analysis {file pil_image} np_array_RGB w image.
Arguments try_body {file pil_image} Image_open st_image np_array_RGB w f.
Arguments upload_section {file pil_image} Image_open st_image np_array_RGB w.
Arguments main {file pil_image} Image_open st_image np_array_RGB w.
Arguments run {file pil_image} Image_open st_image np_array_RGB w ss.
Arguments reachable {file pil_image} Image_open st_image np_array_RGB ss.
Arguments uploaded_file {file} _.
Arguments button_clicked {file} _.
Arguments mock_thickness {file} _.

(** The page elements the upload section can add. *)
Definition upload_event (ev : ui_event) : Prop :=
  match ev with
  | UploadedImageShown | ErrorShown _ | SuccessShown => True
  | _ => False
  end.

(** The stored thickness is [None] or a float: never an image. *)
Definition thickness_typed (ss : gmap string pyval) : Prop :=
  match ss !! "thickness" with
  | Some (PyImage _) => False
  | _ => True
  end.

(** What a page that shows a classification tells about it. *)
Definition shown_from_float (s : state) : Prop :=
  (forall arg,
      In (ClassifierCalled arg) (page s) ->
      exists x : float,
        arg = PyFloat x
        /\ session_state s !! "thickness" = Some (PyFloat x)
        /\ exists p, session_state s !! "processed_image" = Some p /\ p <> PyNone)
  /\ (forall t l c,
         In (ResultsShown t l c) (page s) ->
         exists x : float,
           t = PyFloat x
           /\ classify_endometrium (PyFloat x) = Ok (l, c)
           /\ l <> "N/A").

(** ** The mock measurement *)

(** Rounding of a rational to the nearest integer, ties to even. *)
Definition Qround_half_even (q : Q) : Z :=
  let f := Qfloor q in
  match Qcompare (q - inject_Z f) (1 # 2) with
  | Lt => f
  | Gt => f + 1
  | Eq => if Z.even f then f else f + 1
  end.

(** The float nearest to the fraction [n/d] (ties to even), for integers of
    any size: the quotient is computed with enough bits and rounded once. *)
Definition Q2F (n : Z) (d : positive) : float :=
  let round s p :=
    let '(q, e, l) :=
      SFdiv_core_binary Float64.prec Float64.emax (Zpos p) 0 (Zpos d) 0 in
    binary_round_aux Float64.prec Float64.emax s q e l in
  match n with
  | Z0 => S754_zero false
  | Zpos p => round false p
  | Zneg p => round true p
  end.

(** [round(x, 2)] on a float: the exact value is rounded to two decimals,
    ties to even, and the decimal result converted back to the nearest
    float; zeros, infinities and NaN are returned as they are, and a
    result of zero keeps the sign of [x]. *)
Definition py_round2 (x : float) : float :=
  match x with
  | S754_finite s _ _ =>
      let n := Qround_half_even (Float64.F2Q x * 100) in
      if (n =? 0)%Z then S754_zero s else Q2F n 100
  | _ => x
  end.

(** [mock_thickness = round(random.uniform(6.5, 12.5), 2)], given the
    number [u] drawn by [random.uniform(6.5, 12.5)]. *)
Definition mock_measurement (u : float) : float := py_round2 u.

(** The result the classifier gives for the two-decimal value [n/100]. *)
Definition expected_for_hundredths (n : Z) : string * string :=
  if (900 <=? n)%Z then receptive
  else if (701 <=? n)%Z then pre_receptive
  else non_receptive.

(** What is checked of each two-decimal value a measurement can take. *)
Definition hundredth_ok (n : Z) : bool :=
  let t := Q2F n 100 in
  match t, Float64.lit n 100 with
  | S754_finite s1 m1 e1, S754_finite s2 m2 e2 =>
      Bool.eqb s1 s2 && (m1 =? m2)%positive && (e1 =? e2)%Z
  | _, _ => false
  end
  && Float64.valid t
  && Qle_bool (13 # 2) (Float64.F2Q t) && Qle_bool (Float64.F2Q t) (25 # 2)
  && match classify_endometrium (PyFloat t) with
     | Ok (l, c) =>
         String.eqb l (fst (expected_for_hundredths n))
         && String.eqb c (snd (expected_for_hundredths n))
     | Raise _ => false
     end.

(** [arr[i, j]], if within the array. *)
Definition pixel_at (arr : raster) (i j : nat) : option pixel :=
  row ← arr !! i; row !! j.

Definition pixel_ok (p : pixel) : bool :=
  let '(r, g, b) := p in is_uint8 r && is_uint8 g && is_uint8 b.

(** The two session fields go together: both missing, both [None], or a
    float thickness with an image. *)
Definition session_paired (ss : gmap string pyval) : Prop :=
  match ss !! "thickness", ss !! "processed_image" with
  | None, None
  | Some PyNone, Some PyNone
  | Some (PyFloat _), Some (PyImage _) => True
  | _, _ => False
  end.

(** * Properties *)

Ltac script_simpl :=
  cbn -[lookup insert classify_endometrium mock_segmentation] in *.

(** ** Binary64 comparison against the denoted rationals *)

Module Float64Facts.
Import Float64.
Local Open Scope Z_scope.

Lemma digits2_bounds (m : positive) :
  2 ^ (Zpos (digits2_pos m) - 1) <= Zpos m < 2 ^ Zpos (digits2_pos m).
Proof.
  induction m as [m IH | m IH |]; cbn [digits2_pos].
  - rewrite Pos2Z.inj_succ.
    replace (Z.succ (Zpos (digits2_pos m)) - 1) with (Z.succ (Zpos (digits2_pos m) - 1)) by lia.
    rewrite !Z.pow_succ_r by lia. lia.
  - rewrite Pos2Z.inj_succ.
    replace (Z.succ (Zpos (digits2_pos m)) - 1) with (Z.succ (Zpos (digits2_pos m) - 1)) by lia.
    rewrite !Z.pow_succ_r by lia. lia.
  - change (2 ^ (1 - 1)) with 1. change (2 ^ 1) with 2. lia.
Qed.

Lemma valid_in_format s m e :
  valid (S754_finite s m e) = true -> in_format m e.
Proof.
  unfold valid, valid_binary, bounded, canonical_mantissa, fexp, SpecFloat.emin, prec, emax.
  intros H. apply andb_true_iff in H as [Hc He].
  apply Z.eqb_eq in Hc. apply Z.leb_le in He.
  pose proof (digits2_bounds m) as [Hlo Hhi].
  set (d := Zpos (digits2_pos m)) in *.
  assert (Hd : d <= 53) by lia.
  unfold in_format. split; [lia|]. split.
  - eapply Z.lt_le_trans; [exact Hhi|]. apply Z.pow_le_mono_r; lia.
  - intros Hn. assert (d = 53) as -> by lia. exact Hlo.
Qed.

Lemma pow2_pos (k : Z) : 0 <= k -> 0 < 2 ^ k.
Proof. intros. apply Z.pow_pos_nonneg; lia. Qed.

(** A smaller exponent means a smaller magnitude. *)
Lemma magnitude_lt m1 e1 m2 e2 :
  in_format m1 e1 -> in_format m2 e2 -> e1 < e2 ->
  Zpos m1 * 2 ^ (e1 + 1074) < Zpos m2 * 2 ^ (e2 + 1074).
Proof.
  intros (He1 & Hm1 & _) (He2 & _ & Hm2) Hlt.
  specialize (Hm2 ltac:(lia)).
  replace (e2 + 1074) with ((e1 + 1074) + 1 + (e2 - e1 - 1)) by lia.
  rewrite (Z.pow_add_r 2 (e1 + 1074 + 1)), (Z.pow_add_r 2 (e1 + 1074) 1) by lia.
  pose proof (pow2_pos (e1 + 1074) ltac:(lia)) as HP.
  pose proof (pow2_pos (e2 - e1 - 1) ltac:(lia)) as HK.
  change (2 ^ 1) with 2. change (2 ^ 53) with (2 * 2 ^ 52) in Hm1.
  set (P := 2 ^ (e1 + 1074)) in *. set (K := 2 ^ (e2 - e1 - 1)) in *.
  set (B := 2 ^ 52) in *. clearbody P K B.
  assert (Zpos m1 * P < 2 * B * P) by (apply Z.mul_lt_mono_pos_r; lia).
  assert (B * P <= Zpos m2 * P) by (apply Z.mul_le_mono_nonneg_r; lia).
  assert (Zpos m2 * P * 1 <= Zpos m2 * P * K)
    by (apply Z.mul_le_mono_nonneg_l; [apply Z.mul_nonneg_nonneg|]; lia).
  lia.
Qed.

Lemma compare_magnitude m1 e1 m2 e2 :
  in_format m1 e1 -> in_format m2 e2 ->
  match e1 ?= e2 with
  | Lt => Lt
  | Gt => Gt
  | Eq => Pos.compare_cont Eq m1 m2
  end = (Zpos m1 * 2 ^ (e1 + 1074) ?= Zpos m2 * 2 ^ (e2 + 1074)).
Proof.
  intros H1 H2. destruct (Z.compare_spec e1 e2) as [-> | Hlt | Hgt].
  - change (Pos.compare_cont Eq m1 m2) with (Zpos m1 ?= Zpos m2).
    apply Zmult_compare_compat_r, Z.lt_gt, pow2_pos. destruct H2; lia.
  - symmetry. apply Z.compare_lt_iff. now apply magnitude_lt.
  - symmetry. apply Z.compare_gt_iff. now apply magnitude_lt.
Qed.

(** The comparison of two finite floats is the comparison of their
    scaled values. *)
Lemma SFcompare_scaled x y :
  is_finite x = true -> is_finite y = true ->
  valid x = true -> valid y = true ->
  SFcompare x y = Some (scaled x ?= scaled y).
Proof.
  destruct x as [sx | sx | | sx mx ex], y as [sy | sy | | sy my ey];
    try discriminate; intros _ _ Vx Vy; cbn [SFcompare scaled].
  - reflexivity.
  - apply valid_in_format in Vy as Hy.
    pose proof (pow2_pos (ey + 1074) ltac:(destruct Hy; lia)).
    f_equal. symmetry. destruct sy.
    + apply Z.compare_gt_iff. lia.
    + apply Z.compare_lt_iff. lia.
  - apply valid_in_format in Vx as Hx.
    pose proof (pow2_pos (ex + 1074) ltac:(destruct Hx; lia)).
    f_equal. symmetry. destruct sx.
    + apply Z.compare_lt_iff. lia.
    + apply Z.compare_gt_iff. lia.
  - apply valid_in_format in Vx as Hx. apply valid_in_format in Vy as Hy.
    pose proof (pow2_pos (ex + 1074) ltac:(destruct Hx; lia)).
    pose proof (pow2_pos (ey + 1074) ltac:(destruct Hy; lia)).
    pose proof (compare_magnitude mx ex my ey Hx Hy) as Hc.
    f_equal. destruct sx, sy.
    + change (Zneg mx) with (- Zpos mx). change (Zneg my) with (- Zpos my).
      rewrite !Z.mul_opp_l, Z.compare_opp, (Z.compare_antisym (Zpos mx * _)).
      rewrite <- Hc. now destruct (ex ?= ey).
    + symmetry. apply Z.compare_lt_iff. lia.
    + symmetry. apply Z.compare_gt_iff. lia.
    + exact Hc.
Qed.

Lemma F2Q_scaled x :
  is_finite x = true -> valid x = true ->
  (F2Q x == Qmake (scaled x) (2 ^ 1074)%positive)%Q.
Proof.
  destruct x as [sx | sx | | s m e]; try discriminate; intros _ V.
  - reflexivity.
  - apply valid_in_format in V as ((He & _) & _).
    unfold F2Q, scaled, Qeq.
    set (z := if s then Zneg m else Zpos m). clearbody z.
    assert (HK : Zpos (2 ^ 1074)%positive = 2 ^ 1074) by apply Pos2Z.inj_pow.
    destruct e as [| p | p]; cbn [Qnum Qden inject_Z]; rewrite HK.
    + rewrite Z.add_0_l. lia.
    + rewrite Z.pow_pos_fold, Z.pow_add_r by lia. lia.
    + rewrite Pos2Z.inj_pow.
      replace 1074 with ((Zneg p + 1074) + Zpos p) at 1 by lia.
      rewrite Z.pow_add_r by lia. lia.
Qed.

(** Comparison of finite floats is comparison of the rationals they
    denote. *)
Theorem SFcompare_correct x y :
  is_finite x = true -> is_finite y = true ->
  valid x = true -> valid y = true ->
  SFcompare x y = Some (F2Q x ?= F2Q y)%Q.
Proof.
  intros Fx Fy Vx Vy. rewrite (SFcompare_scaled x y) by assumption.
  f_equal.
  rewrite (Qcompare_comp _ _ (F2Q_scaled x Fx Vx) _ _ (F2Q_scaled y Fy Vy)).
  unfold Qcompare; cbn [Qnum Qden].
  apply Zmult_compare_compat_r. reflexivity.
Qed.
End Float64Facts.

(** ** The classifier on floats *)

Section Classifier.
Import Float64 Float64Facts.
Local Open Scope Q_scope.

Variable x : float.
Hypothesis x_finite : is_finite x = true.
Hypothesis x_valid : valid x = true.

Variable c : float.
Hypothesis c_finite : is_finite c = true.
Hypothesis c_valid : valid c = true.

Lemma ge_spec : ge x c = true <-> F2Q c <= F2Q x.
Proof.
  unfold ge. rewrite SFcompare_correct by assumption.
  change (F2Q c <= F2Q x) with (F2Q x >= F2Q c). rewrite Qge_alt.
  destruct (F2Q x ?= F2Q c); intuition congruence.
Qed.

Lemma le_spec : le x c = true <-> F2Q x <= F2Q c.
Proof.
  unfold le. rewrite SFcompare_correct by assumption. rewrite Qle_alt.
  destruct (F2Q x ?= F2Q c); intuition congruence.
Qed.

Lemma gt_spec : gt x c = true <-> F2Q c < F2Q x.
Proof.
  unfold gt. rewrite SFcompare_correct by assumption.
  change (F2Q c < F2Q x) with (F2Q x > F2Q c). rewrite Qgt_alt.
  destruct (F2Q x ?= F2Q c); intuition congruence.
Qed.

Lemma lt_spec : lt x c = true <-> F2Q x < F2Q c.
Proof.
  unfold lt. rewrite SFcompare_correct by assumption. rewrite Qlt_alt.
  destruct (F2Q x ?= F2Q c); intuition congruence.
Qed.

Lemma eq_spec : eq x c = true <-> F2Q x == F2Q c.
Proof.
  unfold eq. rewrite SFcompare_correct by assumption. rewrite Qeq_alt.
  destruct (F2Q x ?= F2Q c); intuition congruence.
Qed.
End Classifier.

(** The thresholds are the exact numbers 9, 15 and 7. *)
Lemma f9_0_exact : (Float64.F2Q f9_0 == 9)%Q.
Proof. reflexivity. Qed.
Lemma f15_0_exact : (Float64.F2Q f15_0 == 15)%Q.
Proof. reflexivity. Qed.
Lemma f7_0_exact : (Float64.F2Q f7_0 == 7)%Q.
Proof. reflexivity. Qed.

(** The classifier on a float, as a decision list. *)
Lemma classify_float (x : float) :
  classify_endometrium (PyFloat x) =
  Ok (if Float64.ge x f9_0 && Float64.le x f15_0 then branch_result BReceptive
      else if Float64.gt x f7_0 && Float64.lt x f9_0 then branch_result BPreReceptive
      else branch_result BNonReceptive).
Proof.
  unfold classify_endometrium, py_and, py_cmp; cbn.
  destruct (Float64.ge x f9_0), (Float64.le x f15_0),
    (Float64.gt x f7_0), (Float64.lt x f9_0); reflexivity.
Qed.

Lemma branch_taken_float (x : float) :
  branch_taken (PyFloat x) =
  Ok (if Float64.ge x f9_0 && Float64.le x f15_0 then BReceptive
      else if Float64.gt x f7_0 && Float64.lt x f9_0 then BPreReceptive
      else BNonReceptive).
Proof.
  unfold branch_taken, py_and, py_cmp; cbn.
  destruct (Float64.ge x f9_0), (Float64.le x f15_0),
    (Float64.gt x f7_0), (Float64.lt x f9_0); reflexivity.
Qed.

(** C1: every float t with 9.0 <= t <= 15.0 (bounds included) is classified
    "Receptive (9-15 mm)" with colour "green", the normal severity; so are
    the literals 9.0, 12.5 and 15.0. *)
Theorem classify_receptive_range :
  (forall t : float,
      Float64.is_finite t = true -> Float64.valid t = true ->
      (9 <= Float64.F2Q t)%Q -> (Float64.F2Q t <= 15)%Q ->
      classify_endometrium (PyFloat t) = Ok receptive)
  /\ classify_endometrium (PyFloat (Float64.lit 90 10)) = Ok receptive
  /\ classify_endometrium (PyFloat (Float64.lit 125 10)) = Ok receptive
  /\ classify_endometrium (PyFloat (Float64.lit 150 10)) = Ok receptive
  /\ receptive = ("Receptive (9-15 mm)", "green")
  /\ severity_of (snd receptive) = normal.
Proof.
  split; [| repeat split; reflexivity].
  intros t Hf Hv H9 H15. rewrite classify_float.
  assert (Float64.ge t f9_0 = true) as ->.
  { apply ge_spec; try assumption; try reflexivity. now rewrite f9_0_exact. }
  assert (Float64.le t f15_0 = true) as ->.
  { apply le_spec; try assumption; try reflexivity. now rewrite f15_0_exact. }
  reflexivity.
Qed.

Lemma classify_receptive_range_witness :
  classify_endometrium (PyFloat (Float64.lit 1137 100)) = Ok receptive.
Proof.
  apply (proj1 classify_receptive_range (Float64.lit 1137 100));
    [reflexivity | reflexivity | vm_compute; discriminate | vm_compute; discriminate].
Defined.

(** C2: every float t with 7.0 < t < 9.0 (both bounds excluded) is
    classified "Pre-Receptive (7-9 mm)" with colour "orange", the warning
    severity; so are the literals 7.01, 8.0 and 8.99. *)
Theorem classify_pre_receptive_range :
  (forall t : float,
      Float64.is_finite t = true -> Float64.valid t = true ->
      (7 < Float64.F2Q t)%Q -> (Float64.F2Q t < 9)%Q ->
      classify_endometrium (PyFloat t) = Ok pre_receptive)
  /\ classify_endometrium (PyFloat (Float64.lit 701 100)) = Ok pre_receptive
  /\ classify_endometrium (PyFloat (Float64.lit 80 10)) = Ok pre_receptive
  /\ classify_endometrium (PyFloat (Float64.lit 899 100)) = Ok pre_receptive
  /\ pre_receptive = ("Pre-Receptive (7-9 mm)", "orange")
  /\ severity_of (snd pre_receptive) = warning.
Proof.
  split; [| repeat split; reflexivity].
  intros t Hf Hv H7 H9. rewrite classify_float.
  assert (Float64.ge t f9_0 = false) as ->.
  { apply not_true_is_false. intros H.
    apply ge_spec in H; try assumption; try reflexivity.
    rewrite f9_0_exact in H. apply (Qlt_not_le _ _ H9 H). }
  assert (Float64.gt t f7_0 = true) as ->.
  { apply gt_spec; try assumption; try reflexivity. now rewrite f7_0_exact. }
  assert (Float64.lt t f9_0 = true) as ->.
  { apply lt_spec; try assumption; try reflexivity. now rewrite f9_0_exact. }
  reflexivity.
Qed.

Lemma classify_pre_receptive_range_witness :
  classify_endometrium (PyFloat (Float64.lit 842 100)) = Ok pre_receptive.
Proof.
  apply (proj1 classify_pre_receptive_range (Float64.lit 842 100));
    [reflexivity | reflexivity | reflexivity | reflexivity].
Defined.

(** C3: every finite float t with t < 7.0 or t > 15.0 is classified
    "Non-Receptive (<7 mm or >15 mm)" with colour "red", the critical
    severity, and so is t = 7.0 exactly, which fails the strict test
    t > 7.0 of the Pre-Receptive branch. *)
Theorem classify_non_receptive_range :
  (forall t : float,
      Float64.is_finite t = true -> Float64.valid t = true ->
      (Float64.F2Q t < 7)%Q \/ (15 < Float64.F2Q t)%Q \/ (Float64.F2Q t == 7)%Q ->
      classify_endometrium (PyFloat t) = Ok non_receptive)
  /\ classify_endometrium (PyFloat (Float64.lit 70 10)) = Ok non_receptive
  /\ guard BPreReceptive (PyFloat (Float64.lit 70 10)) = false
  /\ classify_endometrium (PyFloat (Float64.lit 699 100)) = Ok non_receptive
  /\ classify_endometrium (PyFloat (Float64.lit 1501 100)) = Ok non_receptive
  /\ classify_endometrium (PyFloat (Float64.lit 0 10)) = Ok non_receptive
  /\ classify_endometrium (PyFloat (Float64.lit 1000 10)) = Ok non_receptive
  /\ non_receptive = ("Non-Receptive (<7 mm or >15 mm)", "red")
  /\ severity_of (snd non_receptive) = critical.
Proof.
  split; [| repeat split; reflexivity].
  intros t Hf Hv H. rewrite classify_float.
  assert (Float64.ge t f9_0 && Float64.le t f15_0 = false) as ->.
  { apply not_true_is_false. intros Hb. apply andb_true_iff in Hb as [Hge Hle].
    apply ge_spec in Hge; try assumption; try reflexivity.
    apply le_spec in Hle; try assumption; try reflexivity.
    rewrite f9_0_exact in Hge. rewrite f15_0_exact in Hle.
    destruct H as [H | [H | H]].
    - apply (Qlt_not_le _ _ H). apply Qle_trans with 9%Q; [discriminate | exact Hge].
    - apply (Qlt_not_le _ _ H Hle).
    - rewrite H in Hge. now apply Hge. }
  assert (Float64.gt t f7_0 && Float64.lt t f9_0 = false) as ->.
  { apply not_true_is_false. intros Hb. apply andb_true_iff in Hb as [Hgt Hlt].
    apply gt_spec in Hgt; try assumption; try reflexivity.
    apply lt_spec in Hlt; try assumption; try reflexivity.
    rewrite f7_0_exact in Hgt. rewrite f9_0_exact in Hlt.
    destruct H as [H | [H | H]].
    - apply (Qlt_irrefl 7). now apply Qlt_trans with (Float64.F2Q t).
    - apply (Qlt_irrefl 9). apply Qlt_trans with 15%Q; [reflexivity |].
      now apply Qlt_trans with (Float64.F2Q t).
    - rewrite H in Hgt. apply (Qlt_irrefl _ Hgt). }
  reflexivity.
Qed.

Lemma classify_non_receptive_range_witness :
  classify_endometrium (PyFloat (Float64.lit 652 100)) = Ok non_receptive.
Proof.
  apply (proj1 classify_non_receptive_range (Float64.lit 652 100));
    [reflexivity | reflexivity | left; reflexivity].
Defined.

(** C4: on an absent thickness ([None], the only value for which
    [thickness_mm is None] holds) the classifier returns the label "N/A"
    with a free-text message in place of a colour, the informational
    severity. *)
Theorem classify_absent (v : pyval) :
  is_None v = true ->
  v = PyNone
  /\ classify_endometrium v = Ok ("N/A", "Please run the analysis first.")
  /\ severity_of "Please run the analysis first." = informational.
Proof.
  destruct v; try discriminate. intros _. repeat split.
Qed.

Lemma classify_absent_witness :
  is_None PyNone = true
  /\ PyNone = PyNone
  /\ classify_endometrium PyNone = Ok ("N/A", "Please run the analysis first.")
  /\ severity_of "Please run the analysis first." = informational.
Proof.
  split; [reflexivity | apply (classify_absent PyNone); reflexivity].
Defined.

(** C5 as stated fails on the absent input: the second component returned
    for [None] is a message, not one of the three display colours, and its
    severity is none of normal, warning, critical. *)
Lemma absent_tag_not_a_color :
  ~ exists label tag,
      classify_endometrium PyNone = Ok (label, tag)
      /\ (In tag display_colors
          \/ In (severity_of tag) [normal; warning; critical]).
Proof.
  intros (label & tag & H & Hin). cbn in H. injection H as <- <-.
  destruct Hin as [Hin | Hin]; cbn in Hin; intuition discriminate.
Qed.

(** C5, amended: for every float input (finite or not) the second
    component is one of the display colours "green", "orange", "red",
    that is, one of the severities normal, warning, critical; for the
    absent input it is the message "Please run the analysis first.", of
    informational severity. *)
Theorem classify_tag_enumerated :
  (forall x : float,
      exists label tag,
        classify_endometrium (PyFloat x) = Ok (label, tag)
        /\ In tag display_colors
        /\ In (severity_of tag) [normal; warning; critical])
  /\ (exists label,
        classify_endometrium PyNone = Ok (label, "Please run the analysis first.")
        /\ ~ In "Please run the analysis first." display_colors
        /\ severity_of "Please run the analysis first." = informational).
Proof.
  split.
  - intros x. rewrite classify_float.
    destruct (Float64.ge x f9_0 && Float64.le x f15_0);
      [| destruct (Float64.gt x f7_0 && Float64.lt x f9_0)];
      eexists _, _; (split; [reflexivity |]); cbn; intuition.
  - exists "N/A". repeat split. cbn. intuition discriminate.
Qed.

(** The tests of two different branches never hold together. *)
Lemma guard_exclusive (b1 b2 : branch) (v : pyval) :
  guard b1 v = true -> guard b2 v = true -> b1 = b2.
Proof.
  destruct v as [| x | im]; destruct b1, b2; cbn; try congruence;
    unfold Float64.ge, Float64.le, Float64.gt, Float64.lt;
    destruct (SFcompare x f9_0) as [[]|], (SFcompare x f15_0) as [[]|],
      (SFcompare x f7_0) as [[]|]; cbn; congruence.
Qed.

(** C6: on the absent value and on every float the classifier raises no
    exception and returns the result of exactly one of its four branches:
    the branch taken is the only one whose test holds. *)
Theorem classify_total_exclusive (v : pyval) :
  v = PyNone \/ (exists x : float, v = PyFloat x) ->
  exists b : branch,
    branch_taken v = Ok b
    /\ classify_endometrium v = Ok (branch_result b)
    /\ guard b v = true
    /\ (forall b' : branch, guard b' v = true -> b' = b).
Proof.
  intros [-> | [x ->]].
  - exists BAbsent. repeat split. intros b' H. now apply (guard_exclusive _ _ PyNone).
  - rewrite branch_taken_float, classify_float.
    assert (forall b, guard b (PyFloat x) = true ->
                      forall b', guard b' (PyFloat x) = true -> b' = b)
      as Huniq by (intros; now apply (guard_exclusive _ _ (PyFloat x))).
    destruct (Float64.ge x f9_0 && Float64.le x f15_0) eqn:E1;
      [| destruct (Float64.gt x f7_0 && Float64.lt x f9_0) eqn:E2].
    + exists BReceptive. repeat split; [exact E1 | apply Huniq; exact E1].
    + exists BPreReceptive. repeat split; [exact E2 | apply Huniq; exact E2].
    + assert (guard BNonReceptive (PyFloat x) = true) as G
        by (cbn; now rewrite E1, E2).
      exists BNonReceptive. repeat split; [exact G | apply Huniq; exact G].
Qed.

Lemma classify_total_exclusive_witness :
  exists b : branch,
    branch_taken (PyFloat (Float64.lit 70 10)) = Ok b
    /\ classify_endometrium (PyFloat (Float64.lit 70 10)) = Ok (branch_result b)
    /\ guard b (PyFloat (Float64.lit 70 10)) = true
    /\ (forall b' : branch, guard b' (PyFloat (Float64.lit 70 10)) = true -> b' = b).
Proof.
  apply (classify_total_exclusive (PyFloat (Float64.lit 70 10))).
  right. exists (Float64.lit 70 10). reflexivity.
Defined.

(** Outside that domain the comparison itself fails. *)
Example classify_image_raises : classify_endometrium (PyImage []) = Raise TypeError.
Proof. reflexivity. Qed.

(** Floats that compare equal (in particular 0.0 and -0.0) compare alike
    with any third float. *)
Lemma eq_compare (x y c : float) :
  Float64.eq x y = true -> SFcompare x c = SFcompare y c.
Proof.
  unfold Float64.eq.
  destruct x as [sx | sx | | sx mx ex], y as [sy | sy | | sy my ey];
    cbn; intros H; try discriminate H; try reflexivity;
    try (destruct sx; discriminate H); try (destruct sy; discriminate H).
  - destruct sx, sy; try discriminate H; reflexivity.
  - assert (sx = sy /\ ex = ey /\ mx = my) as (-> & -> & ->); [| reflexivity].
    destruct sx, sy; try discriminate;
      destruct (Z.compare_spec ex ey) as [-> | |]; try discriminate;
      change (Pos.compare_cont Eq mx my) with (mx ?= my)%positive in H;
      destruct (Pos.compare_spec mx my) as [-> | |]; try discriminate; auto.
Qed.

(** The results section reads the session state and appends to the page;
    it never writes the session state. *)
Lemma results_section_spec (s : state) :
  results_section s =
  match session_state s !! "thickness" with
  | None => (Raised (Exception (KeyError "thickness")), s)
  | Some PyNone => (Done tt, s)
  | Some t =>
      match session_state s !! "processed_image" with
      | None => (Raised (Exception (KeyError "processed_image")), s)
      | Some PyNone => (Done tt, s)
      | Some p =>
          match classify_endometrium t with
          | Ok (l, c) =>
              (Done tt,
               {| session_state := session_state s;
                  page := page s ++ [ClassifierCalled t; ResultsShown t l c;
                                     SegmentationShown p] |})
          | Raise e =>
              (Raised (Exception e),
               {| session_state := session_state s;
                  page := page s ++ [ClassifierCalled t] |})
          end
      end
  end.
Proof.
  destruct s as [ss pg].
  unfold results_section, mbind, script_bind, getitem, render, lift, mret, script_ret.
  script_simpl.
  destruct (ss !! "thickness") as [[| x | im] |] eqn:Et; script_simpl; try reflexivity;
    (destruct (ss !! "processed_image") as [[| y | jm] |] eqn:Ep; script_simpl;
     try reflexivity);
    rewrite ?Et, ?Ep; script_simpl;
    match goal with
    | |- context [classify_endometrium ?v] =>
        destruct (classify_endometrium v) as [[l c] | e]
    end; script_simpl; rewrite ?Ep; script_simpl; rewrite <- ?app_assoc; reflexivity.
Qed.

Lemma results_section_session (s : state) :
  session_state (snd (results_section s)) = session_state s.
Proof.
  rewrite results_section_spec.
  destruct (session_state s !! "thickness") as [[| x | im] |]; try reflexivity;
    (destruct (session_state s !! "processed_image") as [[| y | jm] |];
     try reflexivity);
    match goal with
    | |- context [classify_endometrium ?v] =>
        destruct (classify_endometrium v) as [[l c] | e]
    end; reflexivity.
Qed.

(** On a fresh page, what the results section shows is the classifier's
    answer on the stored thickness. *)
Lemma results_section_shown (s : state) (t : pyval) (l c : string) :
  page s = [] ->
  In (ResultsShown t l c) (page (snd (results_section s))) ->
  session_state s !! "thickness" = Some t
  /\ classify_endometrium t = Ok (l, c).
Proof.
  intros Hpg. rewrite results_section_spec.
  destruct (session_state s !! "thickness") as [[| x | im] |];
    try (destruct (session_state s !! "processed_image") as [[| y | jm] |]);
    try match goal with
      | |- context [classify_endometrium ?v] =>
          destruct (classify_endometrium v) as [[l' c'] | e] eqn:Ec
      end;
    cbn [snd page]; rewrite Hpg; cbn [app In];
    intros H; repeat destruct H as [H | H]; try discriminate H;
    try contradiction; injection H as <- <- <-; auto.
Qed.

(** C7: the classifier is a function of its argument alone: equal inputs
    (and floats that compare equal, such as 0.0 and -0.0) give identical
    results; the results section that calls it leaves the session state as
    it found it, and what it displays is determined by the stored
    thickness. *)
Theorem classify_deterministic :
  (forall v1 v2 : pyval,
      v1 = v2 -> classify_endometrium v1 = classify_endometrium v2)
  /\ (forall x y : float,
         Float64.eq x y = true ->
         classify_endometrium (PyFloat x) = classify_endometrium (PyFloat y))
  /\ (forall s : state, session_state (snd (results_section s)) = session_state s)
  /\ (forall (s1 s2 : state) t1 l1 c1 t2 l2 c2,
         page s1 = [] -> page s2 = [] ->
         session_state s1 !! "thickness" = session_state s2 !! "thickness" ->
         In (ResultsShown t1 l1 c1) (page (snd (results_section s1))) ->
         In (ResultsShown t2 l2 c2) (page (snd (results_section s2))) ->
         t1 = t2 /\ l1 = l2 /\ c1 = c2).
Proof.
  split; [| split; [| split]].
  - intros v1 v2 ->. reflexivity.
  - intros x y H. rewrite !classify_float.
    unfold Float64.ge, Float64.le, Float64.gt, Float64.lt.
    now rewrite !(eq_compare x y _ H).
  - apply results_section_session.
  - intros s1 s2 t1 l1 c1 t2 l2 c2 P1 P2 Ht H1 H2.
    apply results_section_shown in H1 as [E1 C1]; [| exact P1].
    apply results_section_shown in H2 as [E2 C2]; [| exact P2].
    assert (t1 = t2) as -> by congruence.
    split; [reflexivity | split; congruence].
Qed.

Lemma classify_deterministic_witness :
  classify_endometrium (PyFloat (S754_zero false))
  = classify_endometrium (PyFloat (S754_zero true)).
Proof.
  apply (proj1 (proj2 classify_deterministic) (S754_zero false) (S754_zero true)).
  reflexivity.
Defined.

(** ** The mock segmentation *)

Section Segmentation.
Local Open Scope Z_scope.

Lemma lookup_map {A B} (f : A -> B) (l : list A) (i : nat) :
  map f l !! i = f <$> l !! i.
Proof. revert i. induction l as [| a l IH]; intros [| i]; cbn; auto. Qed.

Lemma darken_channel_uint8 (v : Z) :
  0 <= v <= 255 -> darken_channel v = darken_expected v.
Proof.
  intros Hv.
  assert (forallb (fun n => darken_channel (Z.of_nat n) =? darken_expected (Z.of_nat n))
            (seq 0 256) = true) as H by (vm_compute; reflexivity).
  rewrite forallb_forall in H.
  specialize (H (Z.to_nat v)). rewrite Z2Nat.id in H by lia.
  apply Z.eqb_eq, H, in_seq. lia.
Qed.

Lemma slice_index_id (n i : Z) : 0 <= i <= n -> slice_index n i = i.
Proof. intros H. unfold slice_index. destruct (Z.ltb_spec i 0); lia. Qed.

Lemma height_darken arr : height (darken arr) = height arr.
Proof. unfold height, darken. now rewrite length_map. Qed.

Lemma width_darken arr : width (darken arr) = width arr.
Proof. destruct arr as [| row arr]; cbn; [reflexivity |]. now rewrite length_map. Qed.

Lemma block_rows_in_range (h : Z) :
  0 <= h -> 0 <= fst (block_rows h) <= h /\ 0 <= snd (block_rows h) <= h.
Proof. intros H. unfold block_rows; cbn [fst snd]. Z.div_mod_to_equations. lia. Qed.

Lemma block_cols_in_range (w : Z) :
  0 <= w -> 0 <= fst (block_cols w) <= w /\ 0 <= snd (block_cols w) <= w.
Proof. intros H. unfold block_cols; cbn [fst snd]. Z.div_mod_to_equations. lia. Qed.

Lemma in_block_slices (arr : raster) (i j : nat) :
  let h := height arr in
  let w := width arr in
  in_block h w i j =
  in_slice h (h / 2 - h / 6) (h / 2 + h / 6) i
  && in_slice w (w / 2 - w / 5) (w / 2 + w / 5) j.
Proof.
  intros h w. unfold in_block, in_slice.
  assert (0 <= h) as Hh by (unfold h, height; lia).
  assert (0 <= w) as Hw by (unfold w, width; destruct arr; lia).
  destruct (block_rows_in_range h Hh) as [R0 R1].
  destruct (block_cols_in_range w Hw) as [C0 C1].
  unfold block_rows, block_cols in *; cbn [fst snd] in *.
  rewrite !slice_index_id by assumption.
  now rewrite andb_assoc.
Qed.

Lemma assign_block_lookup arr r0 r1 c0 c1 px (i : nat) row :
  arr !! i = Some row ->
  assign_block arr r0 r1 c0 c1 px !! i =
  Some (if in_slice (height arr) r0 r1 i
        then imap (fun j p => if in_slice (width arr) c0 c1 j then px else p) row
        else row).
Proof.
  intros Hi. unfold assign_block; cbv zeta.
  now rewrite list_lookup_imap, Hi.
Qed.

(** Every pixel of the output: bright red inside the block, otherwise the
    darkened input pixel; the shape is unchanged. *)
Lemma mock_segmentation_lookup (rgb : raster) (i j : nat) row p :
  rgb !! i = Some row -> row !! j = Some p ->
  exists row',
    mock_segmentation rgb !! i = Some row'
    /\ length row' = length row
    /\ row' !! j = Some (if in_block (height rgb) (width rgb) i j
                         then bright_red else darken_pixel p).
Proof.
  intros Hi Hj.
  assert (darken rgb !! i = Some (map darken_pixel row)) as Hd
    by (unfold darken; now rewrite lookup_map, Hi).
  unfold mock_segmentation; cbv zeta.
  rewrite (assign_block_lookup _ _ _ _ _ _ _ _ Hd).
  rewrite <- (height_darken rgb), <- (width_darken rgb), in_block_slices.
  destruct (in_slice (height (darken rgb)) _ _ i); cbn [andb].
  - eexists. split; [reflexivity |]. split.
    + now rewrite length_imap, length_map.
    + rewrite list_lookup_imap, lookup_map, Hj. cbn.
      now destruct (in_slice (width (darken rgb)) _ _ j).
  - eexists. split; [reflexivity |]. split.
    + now rewrite length_map.
    + now rewrite lookup_map, Hj.
Qed.

Lemma mock_segmentation_length (rgb : raster) :
  length (mock_segmentation rgb) = length rgb.
Proof.
  unfold mock_segmentation, assign_block, darken.
  now rewrite length_imap, length_map.
Qed.
End Segmentation.

(** ** The script *)

Section AppFacts.
Variables file pil_image : Type.
Variable Image_open : file -> result pil_image.
Variable st_image : pil_image -> result unit.
Variable np_array_RGB : pil_image -> result raster.

Local Abbreviation try_body' := (try_body Image_open st_image np_array_RGB).
Local Abbreviation upload_section' := (upload_section Image_open st_image np_array_RGB).
Local Abbreviation main' := (main Image_open st_image np_array_RGB).
Local Abbreviation run' := (run Image_open st_image np_array_RGB).
Local Abbreviation reachable' := (reachable Image_open st_image np_array_RGB).

Lemma init_session_spec (s : state) :
  exists ss',
    init_session s = (Done tt, {| session_state := ss'; page := page s |})
    /\ ss' !! "thickness" = Some (default PyNone (session_state s !! "thickness"))
    /\ ss' !! "processed_image"
       = Some (default PyNone (session_state s !! "processed_image")).
Proof.
  destruct s as [ss pg].
  unfold init_session, mbind, script_bind, contains, setitem, mret, script_ret.
  script_simpl.
  destruct (ss !! "thickness") as [t |] eqn:Et;
    destruct (ss !! "processed_image") as [p |] eqn:Ep;
    script_simpl; rewrite ?lookup_insert_ne by discriminate;
    rewrite ?Ep; script_simpl;
    (eexists; split; [reflexivity |]); now simplify_map_eq.
Qed.

(** The [try] body, by cases on what the library calls return. *)
Lemma try_body_spec (w : widgets file) (f : file) (s : state) :
  try_body' w f s =
  match Image_open f with
  | Raise e => (Raised (Exception e), s)
  | Ok image =>
      let shown := (page s ++ [UploadedImageShown])%list in
      match st_image image with
      | Raise e =>
          (Raised (Exception e), {| session_state := session_state s; page := shown |})
      | Ok _ =>
          if button_clicked w then
            let measured :=
              <["thickness" := PyFloat (mock_thickness w)]> (session_state s) in
            match np_array_RGB image with
            | Raise e =>
                (Raised (Exception e), {| session_state := measured; page := shown |})
            | Ok arr =>
                (Raised RerunException,
                 {| session_state :=
                      <["processed_image" := PyImage (mock_segmentation arr)]> measured;
                    page := (shown ++ [SuccessShown])%list |})
            end
          else (Done tt, {| session_state := session_state s; page := shown |})
      end
  end.
Proof.
  destruct s as [ss pg].
  unfold try_body, analysis, mbind, script_bind, lift, render, setitem, rerun,
    mret, script_ret.
  script_simpl.
  destruct (Image_open f) as [image | e]; [| reflexivity]. script_simpl.
  destruct (st_image image) as [[] | e]; [| reflexivity]. script_simpl.
  destruct (button_clicked w); [| reflexivity]. script_simpl.
  destruct (np_array_RGB image) as [arr | e]; reflexivity.
Qed.

Lemma try_body_page (w : widgets file) (f : file) (s : state) :
  exists evs,
    page (snd (try_body' w f s)) = (page s ++ evs)%list
    /\ Forall upload_event evs.
Proof.
  rewrite try_body_spec.
  destruct (Image_open f) as [image | e]; cbn [snd].
  - destruct (st_image image) as [[] | e]; cbn [snd page];
      [destruct (button_clicked w);
       [destruct (np_array_RGB image) as [arr | e] |] |];
      cbn [snd page]; rewrite <- ?app_assoc; eexists; split; try reflexivity;
      repeat constructor.
  - exists []. now rewrite app_nil_r.
Qed.

(** An exception raised in the [try] body is handled: the error is shown
    and both session fields are set to [None]. *)
Lemma upload_section_handled (w : widgets file) (f : file) (s s1 : state) e :
  uploaded_file w = Some f ->
  try_body' w f s = (Raised (Exception e), s1) ->
  upload_section' w s =
  (Done tt,
   {| session_state :=
        <["processed_image" := PyNone]> (<["thickness" := PyNone]> (session_state s1));
      page := (page s1 ++ [ErrorShown e])%list |}).
Proof.
  intros Hf Hb. unfold upload_section, try_except. rewrite Hf, Hb.
  reflexivity.
Qed.

(** The script, as the sequence of its three parts. *)
Lemma main_spec (w : widgets file) (s : state) :
  main' w s =
  match init_session s with
  | (Done _, s0) =>
      match upload_section' w s0 with
      | (Done _, s1) => results_section s1
      | (Raised x, s1) => (Raised x, s1)
      end
  | (Raised x, s0) => (Raised x, s0)
  end.
Proof.
  unfold main, mbind, script_bind.
  destruct (init_session s) as [[[] | x] s0]; [| reflexivity].
  destruct (upload_section' w s0) as [[[] | x] s1]; reflexivity.
Qed.

(** The upload section adds only its own elements to the page. *)
Lemma upload_section_page (w : widgets file) (s : state) :
  exists evs,
    page (snd (upload_section' w s)) = (page s ++ evs)%list
    /\ Forall upload_event evs.
Proof.
  unfold upload_section. destruct (uploaded_file w) as [f |].
  - unfold try_except.
    destruct (try_body_page w f s) as (evs & Hpg & Hev).
    destruct (try_body' w f s) as [[[] | [e | ]] s1]; cbn [snd] in *;
      try (exists evs; now split).
    exists (evs ++ [ErrorShown e])%list.
    unfold except_handler, mbind, script_bind, render, setitem. cbn.
    rewrite Hpg, <- app_assoc.
    split; [reflexivity |]. apply Forall_app. split; [exact Hev | repeat constructor].
  - exists []. cbn. now rewrite app_nil_r.
Qed.

Lemma upload_section_typed (w : widgets file) (s : state) :
  thickness_typed (session_state s) ->
  thickness_typed (session_state (snd (upload_section' w s))).
Proof.
  intros Ht. unfold upload_section. destruct (uploaded_file w) as [f |]; [| exact Ht].
  unfold try_except. rewrite try_body_spec.
  destruct (Image_open f) as [image | e]; cbn [snd].
  - destruct (st_image image) as [[] | e];
      [destruct (button_clicked w);
       [destruct (np_array_RGB image) as [arr | e] |] |];
      cbn; try exact Ht; unfold thickness_typed; now simplify_map_eq.
  - cbn. unfold thickness_typed. now simplify_map_eq.
Qed.

Lemma main_typed (w : widgets file) (s : state) :
  thickness_typed (session_state s) ->
  thickness_typed (session_state (snd (main' w s))).
Proof.
  intros Ht. rewrite main_spec.
  destruct (init_session_spec s) as (ss0 & -> & Ht0 & _).
  assert (thickness_typed ss0) as H0.
  { unfold thickness_typed in *. rewrite Ht0.
    destruct (session_state s !! "thickness") as [[] |]; cbn; tauto. }
  pose proof (upload_section_typed w {| session_state := ss0; page := page s |} H0) as H1.
  destruct (upload_section' w _) as [[[] | x] s1]; cbn [snd] in *; [| exact H1].
  now rewrite results_section_session.
Qed.

Lemma reachable_typed (ss : gmap string pyval) :
  reachable' ss -> thickness_typed ss.
Proof.
  induction 1 as [| w ss _ IH].
  - unfold thickness_typed. now rewrite lookup_empty.
  - unfold run. now apply main_typed.
Qed.
End AppFacts.

Lemma upload_events_only (evs : list ui_event) :
  Forall upload_event evs ->
  (forall arg, ~ In (ClassifierCalled arg) evs)
  /\ (forall t l c, ~ In (ResultsShown t l c) evs)
  /\ (forall img, ~ In (SegmentationShown img) evs).
Proof.
  intros H. rewrite Forall_forall in H.
  repeat split; intros; intros Hin; apply list_elem_of_In, H in Hin; exact Hin.
Qed.

Lemma classify_float_label (x : float) :
  exists l c, classify_endometrium (PyFloat x) = Ok (l, c) /\ l <> "N/A".
Proof.
  rewrite classify_float.
  destruct (Float64.ge x f9_0 && Float64.le x f15_0);
    [| destruct (Float64.gt x f7_0 && Float64.lt x f9_0)];
    eexists _, _; (split; [reflexivity | discriminate]).
Qed.

Lemma upload_page_shown (s : state) :
  Forall upload_event (page s) -> shown_from_float s.
Proof.
  intros H. destruct (upload_events_only _ H) as (N1 & N2 & _).
  split.
  - intros arg Hin. destruct (N1 _ Hin).
  - intros t l c Hin. destruct (N2 _ _ _ Hin).
Qed.

Lemma results_page_shown (s : state) (x : float) (p : pyval) (l c : string) :
  Forall upload_event (page s) ->
  session_state s !! "thickness" = Some (PyFloat x) ->
  session_state s !! "processed_image" = Some p -> p <> PyNone ->
  classify_endometrium (PyFloat x) = Ok (l, c) -> l <> "N/A" ->
  shown_from_float
    {| session_state := session_state s;
       page := page s ++ [ClassifierCalled (PyFloat x);
                          ResultsShown (PyFloat x) l c;
                          SegmentationShown p] |}.
Proof.
  intros H Et Ep Hp Hc Hl. destruct (upload_events_only _ H) as (N1 & N2 & _).
  split; cbn [page session_state].
  - intros arg Hin. apply in_app_or in Hin as [Hin | Hin]; [destruct (N1 _ Hin) |].
    destruct Hin as [Hin | [Hin | [Hin | []]]]; try discriminate Hin.
    injection Hin as <-. exists x. split; [reflexivity |]. split; [exact Et |].
    exists p. now split.
  - intros t l' c' Hin.
    apply in_app_or in Hin as [Hin | Hin]; [destruct (N2 _ _ _ Hin) |].
    destruct Hin as [Hin | [Hin | [Hin | []]]]; try discriminate Hin.
    injection Hin as <- <- <-. exists x. now repeat split.
Qed.

Lemma results_section_float (s : state) :
  match session_state s !! "thickness" with
  | Some (PyImage _) => False
  | _ => True
  end ->
  Forall upload_event (page s) ->
  shown_from_float (snd (results_section s)).
Proof.
  intros Ht Hpg. rewrite results_section_spec.
  destruct (session_state s !! "thickness") as [[| x | im] |] eqn:Et;
    try contradiction; try (now apply upload_page_shown).
  destruct (classify_float_label x) as (l & c & Hc & Hl). rewrite Hc.
  destruct (session_state s !! "processed_image") as [[| y | jm] |] eqn:Ep;
    try (now apply upload_page_shown);
    cbn [snd]; now apply results_page_shown.
Qed.

(** C8 as stated fails: the red block has no fixed size. A 6 by 5 image
    gets a 2 by 2 block and a 12 by 10 image a 4 by 4 block, so no single
    size fits the outputs of all well-formed images. *)
Lemma red_block_size_not_fixed :
  ~ exists rows cols : nat,
      forall rgb : raster,
        rgb_array_ok rgb = true ->
        red_rows (mock_segmentation rgb) = rows
        /\ red_cols (mock_segmentation rgb) = cols.
Proof.
  intros (rows & cols & H).
  destruct (H (grey 6 5) eq_refl) as [H1 _].
  destruct (H (grey 12 10) eq_refl) as [H2 _].
  vm_compute in H1, H2. congruence.
Qed.

(** C8, amended: the segmentation output has the shape of the input; each
    channel is multiplied by 0.7 in binary64 and truncated to uint8; and a
    bright-red (255, 50, 50) block centred in the image is painted over
    rows h/2 - h/6 to h/2 + h/6 and columns w/2 - w/5 to w/2 + w/5 (upper
    bounds excluded), so its size, 2(h/6) by 2(w/5), follows the image
    size. When the analysis runs on an upload whose RGB array is [arr],
    this output is what the script stores as the processed image. *)
Theorem mock_segmentation_spec :
  (forall (rgb : raster) (i j : nat) (row : list pixel) (p : pixel),
      rgb !! i = Some row -> row !! j = Some p ->
      exists row',
        mock_segmentation rgb !! i = Some row'
        /\ length row' = length row
        /\ row' !! j = Some (if in_block (height rgb) (width rgb) i j
                             then bright_red else darken_pixel p))
  /\ (forall rgb : raster, length (mock_segmentation rgb) = length rgb)
  /\ (forall v : Z, 0 <= v <= 255 -> darken_channel v = darken_expected v)
  /\ (forall h w : Z,
         snd (block_rows h) - fst (block_rows h) = 2 * (h / 6)
         /\ snd (block_cols w) - fst (block_cols w) = 2 * (w / 5)
         /\ fst (block_rows h) + snd (block_rows h) = 2 * (h / 2)
         /\ fst (block_cols w) + snd (block_cols w) = 2 * (w / 2))
  /\ (forall (file pil_image : Type) (Image_open : file -> result pil_image)
             (st_image : pil_image -> result unit)
             (np_array_RGB : pil_image -> result raster)
             (w : widgets file) (f : file) (s : state) image arr,
         Image_open f = Ok image -> st_image image = Ok tt ->
         button_clicked w = true -> np_array_RGB image = Ok arr ->
         session_state (snd (try_body Image_open st_image np_array_RGB w f s))
           !! "processed_image" = Some (PyImage (mock_segmentation arr))).
Proof.
  split; [| split; [| split; [| split]]].
  - apply mock_segmentation_lookup.
  - apply mock_segmentation_length.
  - apply darken_channel_uint8.
  - intros h w. unfold block_rows, block_cols; cbn [fst snd]. lia.
  - intros file pil_image Image_open st_image np_array_RGB w f s image arr
      Ho Hs Hb Ha.
    rewrite try_body_spec, Ho, Hs, Hb, Ha. cbn [snd session_state].
    apply lookup_insert_eq.
Qed.

Lemma mock_segmentation_spec_witness :
  exists row',
    mock_segmentation (grey 6 5) !! 2%nat = Some row'
    /\ length row' = length (repeat ((100, 100, 100) : pixel) 5)
    /\ row' !! 1%nat = Some (if in_block (height (grey 6 5)) (width (grey 6 5)) 2 1
                             then bright_red else darken_pixel (100, 100, 100)).
Proof.
  apply (proj1 mock_segmentation_spec (grey 6 5) 2%nat 1%nat
           (repeat (100, 100, 100) 5) (100, 100, 100)); reflexivity.
Defined.

(** C9: when the [try] body raises an exception (while opening the upload,
    showing it, or processing it after the thickness was already stored),
    the run ends normally with 'thickness' and 'processed_image' both
    [None], whatever they held before; the error is shown, and neither the
    classifier is called nor the results section rendered. *)
Theorem exception_resets_session
  (file pil_image : Type) (Image_open : file -> result pil_image)
  (st_image : pil_image -> result unit)
  (np_array_RGB : pil_image -> result raster)
  (w : widgets file) (f : file) (ss : gmap string pyval) (e : exn) :
  uploaded_file w = Some f ->
  fst (try_body Image_open st_image np_array_RGB w f
         (snd (init_session {| session_state := ss; page := [] |})))
  = Raised (Exception e) ->
  exists s' : state,
    run Image_open st_image np_array_RGB w ss = (Done tt, s')
    /\ session_state s' !! "thickness" = Some PyNone
    /\ session_state s' !! "processed_image" = Some PyNone
    /\ In (ErrorShown e) (page s')
    /\ (forall arg, ~ In (ClassifierCalled arg) (page s'))
    /\ (forall t l c, ~ In (ResultsShown t l c) (page s'))
    /\ (forall img, ~ In (SegmentationShown img) (page s')).
Proof.
  intros Hf Hraise. unfold run. rewrite main_spec.
  destruct (init_session_spec {| session_state := ss; page := [] |})
    as (ss0 & Hinit & _).
  rewrite Hinit in *. cbn [snd page] in *.
  set (s0 := {| session_state := ss0; page := [] |}) in *.
  destruct (try_body_page _ _ Image_open st_image np_array_RGB w f s0)
    as (evs & Hpg & Hev).
  destruct (try_body Image_open st_image np_array_RGB w f s0) as [o s1] eqn:Hb.
  cbn [fst snd] in *. subst o.
  rewrite (upload_section_handled _ _ _ _ _ w f s0 s1 e Hf Hb).
  rewrite results_section_spec. cbn [session_state].
  rewrite lookup_insert_ne, lookup_insert_eq by discriminate.
  eexists. split; [reflexivity |]. cbn [session_state page].
  split; [now rewrite lookup_insert_ne, lookup_insert_eq by discriminate |].
  split; [now rewrite lookup_insert_eq |].
  split; [apply in_or_app; right; now left |].
  assert (Forall upload_event (page s1 ++ [ErrorShown e])) as Hall.
  { rewrite Hpg. cbn. apply Forall_app. split; [exact Hev | repeat constructor]. }
  apply upload_events_only in Hall. exact Hall.
Qed.

Lemma exception_resets_session_witness :
  exists s' : state,
    run Scenario.open_ok Scenario.show_ok Scenario.decode_fails
        Scenario.clicked Scenario.stale_session = (Done tt, s')
    /\ session_state s' !! "thickness" = Some PyNone
    /\ session_state s' !! "processed_image" = Some PyNone
    /\ In (ErrorShown Scenario.truncated) (page s')
    /\ (forall arg, ~ In (ClassifierCalled arg) (page s'))
    /\ (forall t l c, ~ In (ResultsShown t l c) (page s'))
    /\ (forall img, ~ In (SegmentationShown img) (page s')).
Proof.
  apply (exception_resets_session unit unit Scenario.open_ok Scenario.show_ok
           Scenario.decode_fails Scenario.clicked tt Scenario.stale_session
           Scenario.truncated); reflexivity.
Defined.

(** C10: in every run from a reachable session state, the classifier is
    called only with a float taken from 'thickness', with
    'processed_image' not [None]; so every classification shown is the
    classifier's answer on a float and its label is never "N/A". *)
Theorem classifier_called_on_float_only
  (file pil_image : Type) (Image_open : file -> result pil_image)
  (st_image : pil_image -> result unit)
  (np_array_RGB : pil_image -> result raster)
  (w : widgets file) (ss : gmap string pyval) :
  reachable Image_open st_image np_array_RGB ss ->
  shown_from_float (snd (run Image_open st_image np_array_RGB w ss)).
Proof.
  intros Hr. apply reachable_typed in Hr. unfold run. rewrite main_spec.
  destruct (init_session_spec {| session_state := ss; page := [] |})
    as (ss0 & -> & Ht0 & _). cbn [page session_state] in *.
  set (s0 := {| session_state := ss0; page := [] |}).
  assert (thickness_typed (session_state s0)) as H0.
  { unfold thickness_typed in *. cbn. rewrite Ht0.
    destruct (ss !! "thickness") as [[] |]; cbn; tauto. }
  pose proof (upload_section_typed _ _ Image_open st_image np_array_RGB w s0 H0) as H1.
  destruct (upload_section_page _ _ Image_open st_image np_array_RGB w s0)
    as (evs & Hpg & Hev). cbn in Hpg.
  destruct (upload_section Image_open st_image np_array_RGB w s0)
    as [[[] | x] s1]; cbn [snd] in *.
  - apply results_section_float; [exact H1 | now rewrite Hpg].
  - rewrite <- Hpg in Hev. destruct (upload_events_only _ Hev) as (N1 & N2 & _).
    split; intros; exfalso; firstorder.
Qed.

Lemma classifier_called_on_float_only_witness :
  shown_from_float
    (snd (run Scenario.open_ok Scenario.show_ok Scenario.decode_ok
              Scenario.idle
              (session_state
                 (snd (run Scenario.open_ok Scenario.show_ok Scenario.decode_ok
                           Scenario.clicked ∅))))).
Proof.
  apply (classifier_called_on_float_only unit unit Scenario.open_ok
           Scenario.show_ok Scenario.decode_ok).
  apply reachable_step, reachable_start.
Defined.


(** ** Further properties of the classifier *)

(** X1: on finite floats each label is returned on its interval and nowhere
    else: Receptive exactly on [9, 15], Pre-Receptive exactly on (7, 9),
    Non-Receptive exactly on t <= 7 or t > 15. *)
Theorem classify_label_iff (t : float) :
  Float64.is_finite t = true -> Float64.valid t = true ->
  (classify_endometrium (PyFloat t) = Ok receptive
   <-> (9 <= Float64.F2Q t /\ Float64.F2Q t <= 15)%Q)
  /\ (classify_endometrium (PyFloat t) = Ok pre_receptive
      <-> (7 < Float64.F2Q t /\ Float64.F2Q t < 9)%Q)
  /\ (classify_endometrium (PyFloat t) = Ok non_receptive
      <-> (Float64.F2Q t <= 7 \/ 15 < Float64.F2Q t)%Q).
Proof.
  intros Hf Hv. rewrite classify_float.
  pose proof (ge_spec t Hf Hv f9_0 eq_refl eq_refl) as Hge.
  pose proof (le_spec t Hf Hv f15_0 eq_refl eq_refl) as Hle.
  pose proof (gt_spec t Hf Hv f7_0 eq_refl eq_refl) as Hgt.
  pose proof (lt_spec t Hf Hv f9_0 eq_refl eq_refl) as Hlt.
  rewrite f9_0_exact in Hge, Hlt. rewrite f15_0_exact in Hle.
  rewrite f7_0_exact in Hgt.
  set (q := Float64.F2Q t) in *. clearbody q.
  destruct (Float64.ge t f9_0), (Float64.le t f15_0),
    (Float64.gt t f7_0), (Float64.lt t f9_0); cbn [andb branch_result];
    repeat match goal with
      | H : true = true <-> _ |- _ => apply proj1 in H; specialize (H eq_refl)
      | H : false = true <-> ?P |- _ =>
          assert (~ P) by (intros HP; apply H in HP; discriminate HP); clear H
      end;
    (split; [| split]); (split; [intros E; try discriminate E | intros E]);
    first [reflexivity | lra | exfalso; lra].
Qed.

Lemma classify_label_iff_witness :
  classify_endometrium (PyFloat (Float64.lit 70 10)) = Ok non_receptive
  <-> (Float64.F2Q (Float64.lit 70 10) <= 7
       \/ 15 < Float64.F2Q (Float64.lit 70 10))%Q.
Proof.
  apply (classify_label_iff (Float64.lit 70 10)); reflexivity.
Defined.

(** X2: a float that is not finite (NaN, +inf, -inf) fails every
    comparison of the first two tests or lies beyond 15, and is classified
    Non-Receptive; no exception is raised. *)
Theorem classify_non_finite (x : float) :
  Float64.is_finite x = false ->
  classify_endometrium (PyFloat x) = Ok non_receptive
  /\ branch_taken (PyFloat x) = Ok BNonReceptive.
Proof.
  destruct x as [s | [|] | | s m e]; try discriminate; intros _; split; reflexivity.
Qed.

Lemma classify_non_finite_witness :
  classify_endometrium (PyFloat S754_nan) = Ok non_receptive
  /\ branch_taken (PyFloat S754_nan) = Ok BNonReceptive.
Proof.
  apply (classify_non_finite S754_nan). reflexivity.
Defined.

(** ** The mock measurement *)

Lemma Qround_half_even_bounds (q : Q) (a b : Z) :
  (inject_Z a <= q)%Q -> (q <= inject_Z b)%Q ->
  (a <= Qround_half_even q <= b)%Z.
Proof.
  intros Ha Hb. unfold Qround_half_even.
  pose proof (Qfloor_le q) as Hlo. pose proof (Qlt_floor q) as Hhi.
  set (f := Qfloor q) in *.
  assert (a <= f)%Z as Haf.
  { apply Z.lt_succ_r. rewrite Zlt_Qlt. unfold Z.succ. lra. }
  assert (f <= b)%Z as Hfb by (rewrite Zle_Qle; lra).
  assert ((inject_Z f < q)%Q -> (f + 1 <= b)%Z) as Hup.
  { intros Hq. apply Z.lt_succ_r. change (Z.succ b) with (b + 1)%Z.
    apply Z.add_lt_mono_r. rewrite Zlt_Qlt. lra. }
  destruct (Qcompare_spec (q - inject_Z f) (1 # 2)) as [E | L | G].
  - destruct (Z.even f); [lia |]. split; [lia |]. apply Hup. lra.
  - lia.
  - split; [lia |]. apply Hup. lra.
Qed.

Lemma hundredth_ok_all (n : Z) :
  (650 <= n <= 1250)%Z -> hundredth_ok n = true.
Proof.
  intros Hn.
  assert (forallb (fun k => hundredth_ok (650 + Z.of_nat k)) (seq 0 601) = true)
    as H by (vm_compute; reflexivity).
  rewrite forallb_forall in H.
  specialize (H (Z.to_nat (n - 650))).
  replace (650 + Z.of_nat (Z.to_nat (n - 650)))%Z with n in H by lia.
  apply H, in_seq. lia.
Qed.

(** X3: for a number u drawn in [6.5, 12.5], the mock thickness
    round(u, 2) is the float of a two-decimal value n/100 with
    650 <= n <= 1250; it stays in [6.5, 12.5], and the classifier returns
    Receptive for n >= 900, Pre-Receptive for 701 <= n <= 899 and
    Non-Receptive for n <= 700 (never because the value exceeds 15). *)
Theorem mock_measurement_classified (u : float) :
  Float64.is_finite u = true -> Float64.valid u = true ->
  (13 # 2 <= Float64.F2Q u)%Q -> (Float64.F2Q u <= 25 # 2)%Q ->
  exists n : Z,
    (650 <= n <= 1250)%Z
    /\ n = Qround_half_even (Float64.F2Q u * 100)
    /\ mock_measurement u = Float64.lit n 100
    /\ Float64.is_finite (mock_measurement u) = true
    /\ Float64.valid (mock_measurement u) = true
    /\ (13 # 2 <= Float64.F2Q (mock_measurement u))%Q
    /\ (Float64.F2Q (mock_measurement u) <= 25 # 2)%Q
    /\ classify_endometrium (PyFloat (mock_measurement u))
       = Ok (expected_for_hundredths n).
Proof.
  intros Hf Hv Hlo Hhi.
  set (n := Qround_half_even (Float64.F2Q u * 100)).
  assert (650 <= n <= 1250)%Z as Hn.
  { apply Qround_half_even_bounds.
    - change (inject_Z 650) with (650 # 1). lra.
    - change (inject_Z 1250) with (1250 # 1). lra. }
  assert (mock_measurement u = Q2F n 100) as Hm.
  { unfold mock_measurement, py_round2.
    destruct u as [s | s | | s m e]; try discriminate Hf.
    - exfalso. cbn in Hlo. lra.
    - fold n. destruct (Z.eqb_spec n 0) as [E | _]; [lia | reflexivity]. }
  pose proof (hundredth_ok_all n Hn) as Hok. unfold hundredth_ok in Hok.
  rewrite <- Hm in Hok.
  apply andb_true_iff in Hok as [Hok Hcls].
  apply andb_true_iff in Hok as [Hok Hle2].
  apply andb_true_iff in Hok as [Hok Hle1].
  apply andb_true_iff in Hok as [Heq Hval].
  exists n. split; [exact Hn |]. split; [reflexivity |].
  destruct (mock_measurement u) as [| | | s1 m1 e1]; try discriminate Heq.
  destruct (Float64.lit n 100) as [| | | s2 m2 e2] eqn:El; try discriminate Heq.
  apply andb_true_iff in Heq as [Heq He].
  apply andb_true_iff in Heq as [Hs Hm1].
  apply eqb_prop in Hs. apply Pos.eqb_eq in Hm1. apply Z.eqb_eq in He. subst.
  split; [reflexivity |]. split; [reflexivity |]. split; [assumption |].
  split; [now apply Qle_bool_iff |]. split; [now apply Qle_bool_iff |].
  destruct (classify_endometrium _) as [[l c] |]; [| discriminate].
  apply andb_true_iff in Hcls as [Hl Hc].
  apply String.eqb_eq in Hl, Hc.
  destruct (expected_for_hundredths n); cbn in *. now subst.
Qed.

Lemma mock_measurement_classified_witness :
  exists n : Z,
    (650 <= n <= 1250)%Z
    /\ n = Qround_half_even (Float64.F2Q (Float64.lit 8995 1000) * 100)
    /\ mock_measurement (Float64.lit 8995 1000) = Float64.lit n 100
    /\ Float64.is_finite (mock_measurement (Float64.lit 8995 1000)) = true
    /\ Float64.valid (mock_measurement (Float64.lit 8995 1000)) = true
    /\ (13 # 2 <= Float64.F2Q (mock_measurement (Float64.lit 8995 1000)))%Q
    /\ (Float64.F2Q (mock_measurement (Float64.lit 8995 1000)) <= 25 # 2)%Q
    /\ classify_endometrium (PyFloat (mock_measurement (Float64.lit 8995 1000)))
       = Ok (expected_for_hundredths n).
Proof.
  apply (mock_measurement_classified (Float64.lit 8995 1000));
    [reflexivity | reflexivity | vm_compute; discriminate | vm_compute; discriminate].
Defined.

(** ** Further properties of the mock segmentation *)

Section SegmentationMore.
Local Open Scope Z_scope.


(** Row [i] of the output, from row [i] of the input. *)
Lemma mock_segmentation_row (rgb : raster) (i : nat) :
  mock_segmentation rgb !! i =
  (fun row =>
     imap (fun j p => if in_block (height rgb) (width rgb) i j
                      then bright_red else darken_pixel p) row)
  <$> rgb !! i.
Proof.
  destruct (rgb !! i) as [row |] eqn:Hi; cbn.
  - assert (darken rgb !! i = Some (map darken_pixel row)) as Hd
      by (unfold darken; now rewrite lookup_map, Hi).
    unfold mock_segmentation; cbv zeta.
    rewrite (assign_block_lookup _ _ _ _ _ _ _ _ Hd). f_equal.
    apply list_eq. intros j.
    rewrite list_lookup_imap.
    rewrite <- (height_darken rgb), <- (width_darken rgb), in_block_slices.
    destruct (in_slice (height (darken rgb)) _ _ i); cbn [andb].
    + rewrite list_lookup_imap, lookup_map.
      now destruct (row !! j).
    + rewrite lookup_map. now destruct (row !! j).
  - apply lookup_ge_None. rewrite mock_segmentation_length.
    now apply lookup_ge_None.
Qed.

Lemma mock_segmentation_pixel_at (rgb : raster) (i j : nat) :
  pixel_at (mock_segmentation rgb) i j =
  (fun p => if in_block (height rgb) (width rgb) i j
            then bright_red else darken_pixel p)
  <$> pixel_at rgb i j.
Proof.
  unfold pixel_at. rewrite mock_segmentation_row.
  destruct (rgb !! i) as [row |]; cbn; [| reflexivity].
  now rewrite list_lookup_imap.
Qed.



Lemma rgb_array_ok_spec (arr : raster) :
  rgb_array_ok arr = true <->
  0 < height arr /\ 0 < width arr
  /\ (forall i row, arr !! i = Some row -> Z.of_nat (length row) = width arr)
  /\ (forall i j p, pixel_at arr i j = Some p -> pixel_ok p = true).
Proof.
  unfold rgb_array_ok, pixel_at.
  rewrite !andb_true_iff, !forallb_forall, Z.ltb_lt, Z.ltb_lt.
  split.
  - intros [[[Hh Hw] Hrows] Hpx]. repeat split; try assumption.
    + intros i row Hi. apply Z.eqb_eq, Hrows, list_elem_of_In.
      now apply list_elem_of_lookup_2 in Hi.
    + intros i j p Hp. apply bind_Some in Hp as (row & Hi & Hj).
      apply list_elem_of_lookup_2, list_elem_of_In in Hi, Hj.
      specialize (Hpx row Hi). rewrite forallb_forall in Hpx.
      apply (Hpx p Hj).
  - intros (Hh & Hw & Hrows & Hpx). repeat split; try assumption.
    + intros row Hin. apply list_elem_of_In, list_elem_of_lookup_1 in Hin as [i Hi].
      apply Z.eqb_eq. eauto.
    + intros row Hin. apply list_elem_of_In, list_elem_of_lookup_1 in Hin as [i Hi].
      apply forallb_forall. intros p Hp.
      apply list_elem_of_In, list_elem_of_lookup_1 in Hp as [j Hj].
      apply (Hpx i j), bind_Some. eauto.
Qed.

Lemma darken_channel_range (v : Z) :
  0 <= v <= 255 -> 0 <= darken_channel v <= 178 /\ darken_channel v <= v.
Proof.
  intros Hv. rewrite darken_channel_uint8 by exact Hv. unfold darken_expected.
  destruct ((v =? 90) || (v =? 170) || (v =? 180)) eqn:E.
  - apply orb_true_iff in E as [E | E]; [apply orb_true_iff in E as [E | E] |];
      apply Z.eqb_eq in E; subst; Z.div_mod_to_equations; lia.
  - Z.div_mod_to_equations. lia.
Qed.

Lemma in_block_iff (h w : Z) (i j : nat) :
  in_block h w i j = true <->
  h / 2 - h / 6 <= Z.of_nat i < h / 2 + h / 6
  /\ w / 2 - w / 5 <= Z.of_nat j < w / 2 + w / 5.
Proof.
  unfold in_block, block_rows, block_cols; cbn [fst snd].
  rewrite !andb_true_iff, !Z.leb_le, !Z.ltb_lt. tauto.
Qed.

Lemma darken_pixel_not_red (p : pixel) :
  pixel_ok p = true -> is_red (darken_pixel p) = false /\ pixel_ok (darken_pixel p) = true.
Proof.
  destruct p as [[r g] b]. unfold pixel_ok, is_uint8, is_red, darken_pixel.
  cbv beta iota zeta. intros H.
  rewrite !andb_true_iff, !Z.leb_le in H. destruct H as [[[? ?] [? ?]] [? ?]].
  pose proof (darken_channel_range r ltac:(lia)).
  pose proof (darken_channel_range g ltac:(lia)).
  pose proof (darken_channel_range b ltac:(lia)).
  split.
  - destruct (Z.eqb_spec (darken_channel r) 255); [lia | reflexivity].
  - rewrite !andb_true_iff, !Z.leb_le. lia.
Qed.



(** X5: darkening is monotone and never brightens: for channel values
    v <= v' in 0..255 the results satisfy darken v <= darken v' <= 178,
    and every non-zero channel gets strictly darker. *)
Theorem darken_monotone_darker (v v' : Z) :
  0 <= v -> v <= v' -> v' <= 255 ->
  0 <= darken_channel v
  /\ darken_channel v <= darken_channel v'
  /\ darken_channel v' <= 178
  /\ (0 < v' -> darken_channel v' < v')
  /\ darken_channel 0 = 0.
Proof.
  intros H0 Hle H255.
  rewrite (darken_channel_uint8 v), (darken_channel_uint8 v') by lia.
  split; [| split; [| split; [| split; [| reflexivity]]]];
    unfold darken_expected;
    destruct (Z.eqb_spec v 90), (Z.eqb_spec v 170), (Z.eqb_spec v 180),
      (Z.eqb_spec v' 90), (Z.eqb_spec v' 170), (Z.eqb_spec v' 180);
    cbn [orb]; subst; try lia; Z.div_mod_to_equations; lia.
Qed.

Lemma darken_monotone_darker_witness :
  0 <= darken_channel 89
  /\ darken_channel 89 <= darken_channel 90
  /\ darken_channel 90 <= 178
  /\ (0 < 90 -> darken_channel 90 < 90)
  /\ darken_channel 0 = 0.
Proof.
  apply (darken_monotone_darker 89 90); lia.
Defined.

(** X6: in the output of a well-formed image a pixel is bright red exactly
    when it lies in the block: darkened pixels never take the mask colour,
    so the mask can be read back from the output. *)
Theorem red_iff_in_block (rgb : raster) (i j : nat) (p' : pixel) :
  rgb_array_ok rgb = true ->
  pixel_at (mock_segmentation rgb) i j = Some p' ->
  (is_red p' = true <-> in_block (height rgb) (width rgb) i j = true).
Proof.
  intros Hok Hp. apply rgb_array_ok_spec in Hok as (_ & _ & _ & Hpx).
  rewrite mock_segmentation_pixel_at in Hp.
  apply fmap_Some in Hp as (p & Hp & ->).
  destruct (in_block _ _ i j).
  - split; reflexivity.
  - destruct (darken_pixel_not_red p (Hpx i j p Hp)) as [-> _].
    split; discriminate.
Qed.

Lemma red_iff_in_block_witness :
  is_red bright_red = true
  <-> in_block (height (grey 6 5)) (width (grey 6 5)) 2 1 = true.
Proof.
  apply (red_iff_in_block (grey 6 5) 2 1 bright_red); reflexivity.
Defined.

(** X7: an image with fewer than 6 rows or fewer than 5 columns gets no
    mask at all (the output is just the darkened image); an image with at
    least 6 rows and 5 columns has its centre pixel painted. *)
Theorem mask_painted_iff_large_enough (rgb : raster) :
  rgb_array_ok rgb = true ->
  (height rgb < 6 \/ width rgb < 5 -> mock_segmentation rgb = darken rgb)
  /\ (6 <= height rgb -> 5 <= width rgb ->
      pixel_at (mock_segmentation rgb)
        (Z.to_nat (height rgb / 2)) (Z.to_nat (width rgb / 2))
      = Some bright_red).
Proof.
  intros Hok. apply rgb_array_ok_spec in Hok as (Hh & Hw & Hrows & _).
  split.
  - intros Hsmall. apply list_eq. intros i.
    rewrite mock_segmentation_row. unfold darken. rewrite lookup_map.
    destruct (rgb !! i) as [row |]; cbn; [| reflexivity]. f_equal.
    apply list_eq. intros j. rewrite list_lookup_imap, lookup_map.
    destruct (row !! j) as [p |]; cbn; [| reflexivity].
    destruct (in_block (height rgb) (width rgb) i j) eqn:E; [| reflexivity].
    exfalso. apply in_block_iff in E. Z.div_mod_to_equations. lia.
  - intros H6 H5. rewrite mock_segmentation_pixel_at.
    set (i := Z.to_nat (height rgb / 2)). set (j := Z.to_nat (width rgb / 2)).
    assert (Z.of_nat i = height rgb / 2) as Ei
      by (unfold i; rewrite Z2Nat.id; [reflexivity | Z.div_mod_to_equations; lia]).
    assert (Z.of_nat j = width rgb / 2) as Ej
      by (unfold j; rewrite Z2Nat.id; [reflexivity | Z.div_mod_to_equations; lia]).
    assert (in_block (height rgb) (width rgb) i j = true) as ->.
    { apply in_block_iff. rewrite Ei, Ej. Z.div_mod_to_equations. lia. }
    unfold pixel_at.
    destruct (lookup_lt_is_Some_2 rgb i) as [row Hi].
    { unfold height in *. Z.div_mod_to_equations. lia. }
    rewrite Hi. cbn.
    destruct (lookup_lt_is_Some_2 row j) as [p Hj].
    { specialize (Hrows i row Hi). Z.div_mod_to_equations. lia. }
    now rewrite Hj.
Qed.

Lemma mask_painted_iff_large_enough_witness :
  (height (grey 5 8) < 6 \/ width (grey 5 8) < 5 ->
   mock_segmentation (grey 5 8) = darken (grey 5 8))
  /\ (6 <= height (grey 5 8) -> 5 <= width (grey 5 8) ->
      pixel_at (mock_segmentation (grey 5 8))
        (Z.to_nat (height (grey 5 8) / 2)) (Z.to_nat (width (grey 5 8) / 2))
      = Some bright_red).
Proof.
  apply (mask_painted_iff_large_enough (grey 5 8)). reflexivity.
Defined.
End SegmentationMore.

(** ** Further properties of the script *)

Section AppMore.
Variables file pil_image : Type.
Variable Image_open : file -> result pil_image.
Variable st_image : pil_image -> result unit.
Variable np_array_RGB : pil_image -> result raster.

Local Abbreviation try_body' := (try_body Image_open st_image np_array_RGB).
Local Abbreviation upload_section' := (upload_section Image_open st_image np_array_RGB).
Local Abbreviation main' := (main Image_open st_image np_array_RGB).
Local Abbreviation run' := (run Image_open st_image np_array_RGB).
Local Abbreviation reachable' := (reachable Image_open st_image np_array_RGB).

Lemma init_session_present (ss : gmap string pyval) (pg : list ui_event) :
  is_Some (ss !! "thickness") -> is_Some (ss !! "processed_image") ->
  init_session {| session_state := ss; page := pg |}
  = (Done tt, {| session_state := ss; page := pg |}).
Proof.
  intros [t Ht] [p Hp].
  unfold init_session, mbind, script_bind, contains, setitem, mret, script_ret.
  script_simpl. rewrite Ht. script_simpl. now rewrite Hp.
Qed.

(** X8: the initialisation creates the two session fields as [None] when
    they are missing and never overwrites a stored value; every other key
    is left alone, and running it again changes nothing. *)
Theorem init_session_keeps_values (ss : gmap string pyval) (pg : list ui_event) :
  exists ss' : gmap string pyval,
    init_session {| session_state := ss; page := pg |}
    = (Done tt, {| session_state := ss'; page := pg |})
    /\ (forall k v, ss !! k = Some v -> ss' !! k = Some v)
    /\ (ss !! "thickness" = None -> ss' !! "thickness" = Some PyNone)
    /\ (ss !! "processed_image" = None -> ss' !! "processed_image" = Some PyNone)
    /\ (forall k, k <> "thickness" -> k <> "processed_image" -> ss' !! k = ss !! k)
    /\ init_session {| session_state := ss'; page := pg |}
       = (Done tt, {| session_state := ss'; page := pg |}).
Proof.
  unfold init_session at 1.
  unfold mbind, script_bind, contains, setitem, mret, script_ret.
  script_simpl.
  destruct (ss !! "thickness") as [t |] eqn:Et;
    destruct (ss !! "processed_image") as [p |] eqn:Ep;
    script_simpl; rewrite ?lookup_insert_ne by discriminate;
    rewrite ?Ep; script_simpl;
    (eexists; split; [reflexivity |]);
    (split; [intros k v Hk | split; [intros Hn | split; [intros Hn | split;
       [intros k Hk1 Hk2 |]]]]);
    try discriminate Hn; try (now simplify_map_eq);
    try (apply init_session_present; simplify_map_eq; eauto);
    repeat match goal with
      | |- context [<[?a := _]> _ !! ?k] =>
          destruct (decide (a = k)) as [<- | ?]; simplify_map_eq
      end; congruence.
Qed.

Lemma except_handler_spec (e : exn) (s : state) :
  except_handler e s =
  (Done tt,
   {| session_state :=
        <["processed_image" := PyNone]> (<["thickness" := PyNone]> (session_state s));
      page := (page s ++ [ErrorShown e])%list |}).
Proof. reflexivity. Qed.

Lemma upload_section_outcome (w : widgets file) (s : state) :
  fst (upload_section' w s) = Done tt
  \/ fst (upload_section' w s) = Raised RerunException.
Proof.
  unfold upload_section. destruct (uploaded_file w) as [f |]; [| now left].
  unfold try_except. rewrite try_body_spec.
  destruct (Image_open f) as [image | e]; [| now left].
  destruct (st_image image) as [[] | e]; [| now left].
  destruct (button_clicked w); [| now left].
  destruct (np_array_RGB image) as [arr | e]; [now right | now left].
Qed.

Lemma upload_section_keys (w : widgets file) (s : state) (k : string) :
  is_Some (session_state s !! k) ->
  is_Some (session_state (snd (upload_section' w s)) !! k).
Proof.
  intros Hk. unfold upload_section. destruct (uploaded_file w) as [f |]; [| exact Hk].
  unfold try_except. rewrite try_body_spec.
  destruct (Image_open f) as [image | e];
    [destruct (st_image image) as [[] | e];
     [destruct (button_clicked w);
      [destruct (np_array_RGB image) as [arr | e] |] |] |];
    cbn [snd session_state]; rewrite ?except_handler_spec; cbn [snd session_state];
    rewrite ?lookup_insert_is_Some'; tauto.
Qed.

(** X9: a run from a reachable session state never ends in an uncaught
    exception: it either completes or ends in the rerun request; and from
    any session state whatever, the fields read by the results section
    exist, so no [KeyError] is raised. *)
Theorem run_never_fails (w : widgets file) (ss : gmap string pyval) :
  reachable' ss ->
  (fst (run' w ss) = Done tt \/ fst (run' w ss) = Raised RerunException)
  /\ (forall (ss0 : gmap string pyval) (k : string),
         fst (run' w ss0) <> Raised (Exception (KeyError k))).
Proof.
  intros Hr.
  assert (forall ss0,
             exists s1 : state,
               (run' w ss0 = (Raised RerunException, s1)
                \/ run' w ss0 = results_section s1)
               /\ is_Some (session_state s1 !! "thickness")
               /\ is_Some (session_state s1 !! "processed_image")
               /\ (thickness_typed ss0 -> thickness_typed (session_state s1)))
    as Hrun.
  { intros ss0. unfold run. rewrite main_spec.
    destruct (init_session_spec {| session_state := ss0; page := [] |})
      as (ss1 & -> & Ht & Hp). cbn [page session_state] in *.
    set (s0 := {| session_state := ss1; page := [] |}).
    pose proof (upload_section_keys w s0 "thickness" ltac:(cbn; eauto)) as Kt.
    pose proof (upload_section_keys w s0 "processed_image" ltac:(cbn; eauto)) as Kp.
    pose proof (upload_section_typed _ _ Image_open st_image np_array_RGB w s0) as Ty.
    destruct (upload_section_outcome w s0) as [Ho | Ho];
      destruct (upload_section' w s0) as [o s1]; cbn [fst snd] in *; subst o;
      exists s1; (split; [auto |]); (split; [exact Kt |]); (split; [exact Kp |]);
      intros Hty; apply Ty; unfold thickness_typed in *; cbn; rewrite Ht;
      destruct (ss0 !! "thickness") as [[] |]; cbn; tauto. }
  split.
  - destruct (Hrun ss) as (s1 & [-> | ->] & [t Kt] & [p Kp] & Hty); [now right |].
    specialize (Hty (reachable_typed _ _ _ _ _ _ Hr)).
    rewrite results_section_spec. unfold thickness_typed in Hty.
    rewrite Kt in *. rewrite Kp.
    destruct t as [| x | im]; [now left | | contradiction].
    destruct (classify_float_label x) as (l & c & -> & _).
    destruct p; now left.
  - intros ss0 k.
    destruct (Hrun ss0) as (s1 & [-> | ->] & [t Kt] & [p Kp] & _); [discriminate |].
    rewrite results_section_spec, Kt, Kp.
    destruct t as [| x | im]; [discriminate | |].
    + destruct (classify_float_label x) as (l & c & -> & _).
      destruct p; discriminate.
    + change (classify_endometrium (PyImage im)) with (@Raise (string * string) TypeError).
      destruct p; discriminate.
Qed.

Lemma upload_section_no_click (w : widgets file) (f : file) image (s : state) :
  uploaded_file w = Some f ->
  Image_open f = Ok image -> st_image image = Ok tt ->
  button_clicked w = false ->
  upload_section' w s =
  (Done tt,
   {| session_state := session_state s;
      page := (page s ++ [UploadedImageShown])%list |}).
Proof.
  intros Hf Ho Hs Hb. unfold upload_section, try_except.
  now rewrite Hf, try_body_spec, Ho, Hs, Hb.
Qed.

Lemma upload_section_none (w : widgets file) (s : state) :
  uploaded_file w = None -> upload_section' w s = (Done tt, s).
Proof. intros Hn. unfold upload_section. now rewrite Hn. Qed.

Lemma upload_section_success (w : widgets file) (f : file) image arr (s : state) :
  uploaded_file w = Some f ->
  Image_open f = Ok image -> st_image image = Ok tt ->
  button_clicked w = true -> np_array_RGB image = Ok arr ->
  upload_section' w s =
  (Raised RerunException,
   {| session_state :=
        <["processed_image" := PyImage (mock_segmentation arr)]>
          (<["thickness" := PyFloat (mock_thickness w)]> (session_state s));
      page := (page s ++ [UploadedImageShown; SuccessShown])%list |}).
Proof.
  intros Hf Ho Hs Hb Ha. unfold upload_section, try_except.
  rewrite Hf, try_body_spec, Ho, Hs, Hb, Ha. cbv zeta.
  now rewrite <- app_assoc.
Qed.

(** X10: a successful analysis ends the run in the rerun request, with the
    measured thickness and the segmented image stored and not touched by
    the exception handler; the rerun of the script on the same upload then
    completes and shows the classification of that thickness and that
    image, leaving the session state as it is. *)
Theorem analysis_then_rerun
  (w w' : widgets file) (f : file) image arr (ss : gmap string pyval) :
  uploaded_file w = Some f -> uploaded_file w' = Some f ->
  Image_open f = Ok image -> st_image image = Ok tt ->
  np_array_RGB image = Ok arr ->
  button_clicked w = true -> button_clicked w' = false ->
  exists (s1 : state) (l c : string),
    run' w ss = (Raised RerunException, s1)
    /\ page s1 = [UploadedImageShown; SuccessShown]
    /\ session_state s1 !! "thickness" = Some (PyFloat (mock_thickness w))
    /\ session_state s1 !! "processed_image"
       = Some (PyImage (mock_segmentation arr))
    /\ classify_endometrium (PyFloat (mock_thickness w)) = Ok (l, c)
    /\ run' w' (session_state s1)
       = (Done tt,
          {| session_state := session_state s1;
             page := [UploadedImageShown;
                      ClassifierCalled (PyFloat (mock_thickness w));
                      ResultsShown (PyFloat (mock_thickness w)) l c;
                      SegmentationShown (PyImage (mock_segmentation arr))] |}).
Proof.
  intros Hf Hf' Ho Hs Ha Hb Hb'.
  destruct (classify_float_label (mock_thickness w)) as (l & c & Hc & _).
  destruct (init_session_spec {| session_state := ss; page := [] |})
    as (ss0 & Hinit & _). cbn [page] in Hinit.
  eexists _, l, c. split.
  { unfold run. rewrite main_spec, Hinit.
    rewrite (upload_section_success w f image arr _ Hf Ho Hs Hb Ha).
    reflexivity. }
  cbn [page session_state app].
  split; [reflexivity |].
  split; [now rewrite lookup_insert_ne, lookup_insert_eq by discriminate |].
  split; [now rewrite lookup_insert_eq |].
  split; [exact Hc |].
  set (ss1 := <["processed_image" := _]> _).
  assert (ss1 !! "thickness" = Some (PyFloat (mock_thickness w))) as Kt
    by (unfold ss1; now rewrite lookup_insert_ne, lookup_insert_eq by discriminate).
  assert (ss1 !! "processed_image" = Some (PyImage (mock_segmentation arr))) as Kp
    by (unfold ss1; now rewrite lookup_insert_eq).
  unfold run. rewrite main_spec.
  rewrite init_session_present by (rewrite ?Kt, ?Kp; eauto).
  rewrite (upload_section_no_click w' f image _ Hf' Ho Hs Hb').
  rewrite results_section_spec. cbn [session_state page app].
  now rewrite Kt, Kp, Hc.
Qed.

(** X11: a run that does not start an analysis (no upload, or an upload that
    opens and displays with the button not clicked) leaves the session
    state exactly as it was, so the results of the last analysis are shown
    again, whichever file is uploaded now. *)
Theorem results_persist_without_analysis
  (w : widgets file) (ss : gmap string pyval) (x : float) (im : raster) :
  uploaded_file w = None
  \/ (exists f image,
         uploaded_file w = Some f /\ Image_open f = Ok image
         /\ st_image image = Ok tt /\ button_clicked w = false) ->
  ss !! "thickness" = Some (PyFloat x) ->
  ss !! "processed_image" = Some (PyImage im) ->
  exists l c : string,
    classify_endometrium (PyFloat x) = Ok (l, c)
    /\ run' w ss
       = (Done tt,
          {| session_state := ss;
             page := (match uploaded_file w with
                      | Some _ => [UploadedImageShown]
                      | None => []
                      end
                      ++ [ClassifierCalled (PyFloat x);
                          ResultsShown (PyFloat x) l c;
                          SegmentationShown (PyImage im)])%list |}).
Proof.
  intros Hw Kt Kp.
  destruct (classify_float_label x) as (l & c & Hc & _).
  exists l, c. split; [exact Hc |].
  unfold run. rewrite main_spec.
  rewrite init_session_present by (rewrite ?Kt, ?Kp; eauto).
  destruct Hw as [Hn | (f & image & Hf & Ho & Hs & Hb)].
  - rewrite (upload_section_none w _ Hn), Hn.
    rewrite results_section_spec. cbn [session_state page app].
    now rewrite Kt, Kp, Hc.
  - rewrite (upload_section_no_click w f image _ Hf Ho Hs Hb), Hf.
    rewrite results_section_spec. cbn [session_state page app].
    now rewrite Kt, Kp, Hc.
Qed.

Lemma upload_section_paired (w : widgets file) (s : state) :
  session_paired (session_state s) ->
  session_paired (session_state (snd (upload_section' w s))).
Proof.
  intros Hp. unfold upload_section. destruct (uploaded_file w) as [f |]; [| exact Hp].
  unfold try_except. rewrite try_body_spec.
  destruct (Image_open f) as [image | e];
    [destruct (st_image image) as [[] | e];
     [destruct (button_clicked w);
      [destruct (np_array_RGB image) as [arr | e] |] |] |];
    cbn [snd session_state]; rewrite ?except_handler_spec; cbn [snd session_state];
    try exact Hp; unfold session_paired; now simplify_map_eq.
Qed.

(** X12: in every reachable session state the two fields go together:
    'thickness' is a float exactly when 'processed_image' is an image, and
    otherwise both are [None] (or, before the first run, both missing).
    A measurement never survives without its image. *)
Theorem reachable_paired (ss : gmap string pyval) :
  reachable' ss -> session_paired ss.
Proof.
  induction 1 as [| w ss _ IH].
  - unfold session_paired. now rewrite !lookup_empty.
  - unfold run. rewrite main_spec.
    destruct (init_session_spec {| session_state := ss; page := [] |})
      as (ss0 & -> & Ht & Hp). cbn [page session_state] in *.
    assert (session_paired ss0) as H0.
    { unfold session_paired in *. rewrite Ht, Hp.
      destruct (ss !! "thickness") as [[] |],
        (ss !! "processed_image") as [[] |]; cbn; tauto. }
    pose proof (upload_section_paired w {| session_state := ss0; page := [] |} H0) as H1.
    destruct (upload_section' w _) as [[[] | sig] s1]; cbn [snd] in *; [| exact H1].
    now rewrite results_section_session.
Qed.
End AppMore.

Lemma run_never_fails_witness :
  (fst (run Scenario.open_ok Scenario.show_ok Scenario.decode_fails
            Scenario.clicked ∅) = Done tt
   \/ fst (run Scenario.open_ok Scenario.show_ok Scenario.decode_fails
               Scenario.clicked ∅) = Raised RerunException)
  /\ (forall (ss0 : gmap string pyval) (k : string),
         fst (run Scenario.open_ok Scenario.show_ok Scenario.decode_fails
                  Scenario.clicked ss0) <> Raised (Exception (KeyError k))).
Proof.
  apply (run_never_fails unit unit Scenario.open_ok Scenario.show_ok
           Scenario.decode_fails Scenario.clicked ∅).
  apply reachable_start.
Defined.

Lemma analysis_then_rerun_witness :
  exists (s1 : state) (l c : string),
    run Scenario.open_ok Scenario.show_ok Scenario.decode_ok
        Scenario.clicked Scenario.stale_session
    = (Raised RerunException, s1)
    /\ page s1 = [UploadedImageShown; SuccessShown]
    /\ session_state s1 !! "thickness"
       = Some (PyFloat (mock_thickness Scenario.clicked))
    /\ session_state s1 !! "processed_image"
       = Some (PyImage (mock_segmentation (grey 6 5)))
    /\ classify_endometrium (PyFloat (mock_thickness Scenario.clicked)) = Ok (l, c)
    /\ run Scenario.open_ok Scenario.show_ok Scenario.decode_ok
           Scenario.idle (session_state s1)
       = (Done tt,
          {| session_state := session_state s1;
             page := [UploadedImageShown;
                      ClassifierCalled (PyFloat (mock_thickness Scenario.clicked));
                      ResultsShown (PyFloat (mock_thickness Scenario.clicked)) l c;
                      SegmentationShown (PyImage (mock_segmentation (grey 6 5)))] |}).
Proof.
  apply (analysis_then_rerun unit unit Scenario.open_ok Scenario.show_ok
           Scenario.decode_ok Scenario.clicked Scenario.idle tt tt (grey 6 5)
           Scenario.stale_session); reflexivity.
Defined.

Lemma results_persist_without_analysis_witness :
  exists l c : string,
    classify_endometrium (PyFloat (Float64.lit 975 100)) = Ok (l, c)
    /\ run Scenario.open_ok Scenario.show_ok Scenario.decode_fails
           Scenario.idle Scenario.stale_session
       = (Done tt,
          {| session_state := Scenario.stale_session;
             page := (match uploaded_file Scenario.idle with
                      | Some _ => [UploadedImageShown]
                      | None => []
                      end
                      ++ [ClassifierCalled (PyFloat (Float64.lit 975 100));
                          ResultsShown (PyFloat (Float64.lit 975 100)) l c;
                          SegmentationShown
                            (PyImage (mock_segmentation (grey 6 5)))])%list |}).
Proof.
  apply (results_persist_without_analysis unit unit Scenario.open_ok
           Scenario.show_ok Scenario.decode_fails Scenario.idle
           Scenario.stale_session (Float64.lit 975 100)
           (mock_segmentation (grey 6 5))).
  - right. exists tt, tt. repeat split; reflexivity.
  - reflexivity.
  - reflexivity.
Defined.

Lemma reachable_paired_witness :
  session_paired
    (session_state
       (snd (run Scenario.open_ok Scenario.show_ok Scenario.decode_fails
                 Scenario.clicked ∅))).
Proof.
  apply (reachable_paired unit unit Scenario.open_ok Scenario.show_ok
           Scenario.decode_fails).
  apply reachable_step, reachable_start.
Defined.
